(** * AssessmentResults page: a shallow embedding and its properties

    The page under study is [src/pages/AssessmentResults.tsx], a React
    component.  Its pure derivations ([getScoreColor], [chartData],
    [tableData], the text built by [downloadResults]) become Rocq functions;
    its effects ([useEffect], [checkAuth], [fetchAssessmentHistory]) run in a
    small monad over the component state that records the calls made to the
    outside world and carries thrown errors.

    The ECMAScript built-ins the component calls are modelled first, in
    [Module JS]. *)

From Stdlib Require Import ZArith NArith PArith Bool List Ascii String Lia.
From Stdlib Require Import Floats.SpecFloat DecimalString.
From Stdlib Require Import Sorting.Permutation Sorting.Sorted DecimalPos DecimalN.
Import ListNotations.

Local Open Scope string_scope.
Local Open Scope Z_scope.

(* ================================================================== *)
(** * ECMAScript built-ins used by the page *)
(* ================================================================== *)

Module JS.

(** ** Numbers

    A JavaScript number is an IEEE 754 binary64 value: [spec_float] with
    precision 53 and maximal exponent 1024.  [>=], [<] and [===] on numbers
    are the IEEE comparisons ([SFleb], [SFltb], [SFeqb]): every comparison
    with NaN is false, and the two zeros are equal. *)

Definition number : Type := spec_float.

Definition prec : Z := 53.
Definition emax : Z := 1024.

Definition NaN : number := S754_nan.

(** The number denoted by an integer (rounded to nearest, ties to even, when
    it has more than 53 significant bits). *)
Definition of_Z (z : Z) : number := binary_normalize prec emax z 0 false.

Definition ge (x y : number) : bool := SFleb y x.
Definition lt (x y : number) : bool := SFltb x y.
Definition le (x y : number) : bool := SFleb x y.
Definition strict_eq (x y : number) : bool := SFeqb x y.

(** ** Strings

    A string is a sequence of code units; the model keeps the code units
    0..255, which is the range of Rocq's [ascii]. *)

Definition LF : string := String (ascii_of_nat 10) EmptyString.

(** WhiteSpace and LineTerminator code units below 256: TAB, LF, VT, FF, CR,
    SP and NBSP.  [String.prototype.trim] and [parseInt] strip these. *)
Definition isWhiteSpace (c : ascii) : bool :=
  let n := N_of_ascii c in
  (((9 <=? n) && (n <=? 13)) || (n =? 32) || (n =? 160))%N.

Fixpoint trimStart (s : string) : string :=
  match s with
  | EmptyString => EmptyString
  | String c s' => if isWhiteSpace c then trimStart s' else s
  end.

Fixpoint trimEnd (s : string) : string :=
  match s with
  | EmptyString => EmptyString
  | String c s' =>
      match trimEnd s' with
      | EmptyString => if isWhiteSpace c then EmptyString else String c EmptyString
      | t => String c t
      end
  end.

(** [String.prototype.trim]. *)
Definition trim (s : string) : string := trimEnd (trimStart s).

(** [Array.prototype.join] on an array of strings. *)
Fixpoint join (sep : string) (l : list string) : string :=
  match l with
  | [] => EmptyString
  | [s] => s
  | s :: rest => s ++ sep ++ join sep rest
  end.

(** Decimal numeral of a natural number, without leading zeros. *)
Definition decimal (n : N) : string := NilEmpty.string_of_uint (N.to_uint n).

(** ** [parseInt(string)], called without a radix *)

Definition digit_value (radix : N) (c : ascii) : option N :=
  let n := N_of_ascii c in
  let v :=
    if ((48 <=? n) && (n <=? 57))%N then Some (n - 48)%N
    else if ((97 <=? n) && (n <=? 122))%N then Some (n - 87)%N
    else if ((65 <=? n) && (n <=? 90))%N then Some (n - 55)%N
    else None in
  match v with
  | Some d => if (d <? radix)%N then Some d else None
  | None => None
  end.

(** Reads the longest prefix of radix-[radix] digits: [acc] is [None] until a
    digit has been read, then the value read so far. *)
Fixpoint read_digits (radix : N) (acc : option N) (s : string) : option N :=
  match s with
  | EmptyString => acc
  | String c s' =>
      match digit_value radix c with
      | Some d =>
          read_digits radix
            (Some (match acc with Some a => a * radix + d | None => d end)%N) s'
      | None => acc
      end
  end.

(** An optional sign. *)
Definition strip_sign (s : string) : bool * string :=
  match s with
  | String "-" s' => (true, s')
  | String "+" s' => (false, s')
  | _ => (false, s)
  end.

(** A leading [0x] or [0X] selects radix 16, otherwise the radix is 10. *)
Definition strip_prefix (s : string) : N * string :=
  match s with
  | String "0" (String "x" s') => (16%N, s')
  | String "0" (String "X" s') => (16%N, s')
  | _ => (10%N, s)
  end.

(** [parseInt]: leading white space is skipped, then a sign, then a radix
    prefix; the longest run of digits is read and what follows it is ignored;
    no digit at all gives NaN.  The integer read is taken exactly (the
    standard lets an implementation approximate a decimal numeral after its
    20th significant digit) and converted to a number. *)
Definition parseInt (input : string) : number :=
  let '(neg, s1) := strip_sign (trimStart input) in
  let '(radix, s2) := strip_prefix s1 in
  match read_digits radix None s2 with
  | None => NaN
  | Some 0%N => S754_zero neg
  | Some n => of_Z (if neg then - Z.of_N n else Z.of_N n)
  end.

(** ** [Number::toString], radix 10

    The standard fixes the text of NaN, of the infinities, of the zeros and of
    every integer of magnitude below 2^53 (its decimal numeral); the shortest
    round-trip digits of the other values are left to [other], a function of
    the host. *)

(** The integer a finite number [m * 2^e] equals, when it is one. *)
Definition integer_value (m : positive) (e : Z) : option Z :=
  match e with
  | Z0 => Some (Zpos m)
  | Zpos p => Some (Z.shiftl (Zpos m) e)
  | Zneg p =>
      if Z.eqb (Z.land (Zpos m) (Z.ones (Zpos p))) 0
      then Some (Z.shiftr (Zpos m) (Zpos p)) else None
  end.

Definition toString (other : number -> string) (x : number) : string :=
  match x with
  | S754_nan => "NaN"
  | S754_infinity false => "Infinity"
  | S754_infinity true => "-Infinity"
  | S754_zero _ => "0"
  | S754_finite s m e =>
      match integer_value m e with
      | Some z =>
          if z <? 2 ^ 53
          then (if s then "-" else "") ++ decimal (Z.to_N z)
          else other x
      | None => other x
      end
  end.

(** ** Plain objects

    An object with string keys is its list of own properties in creation
    order. *)

Definition object (A : Type) : Type := list (string * A).

(** An array index is the canonical numeral of an integer in 0 .. 2^32 - 2. *)
Definition array_index (k : string) : option N :=
  match read_digits 10 None k with
  | Some n =>
      if (String.eqb (decimal n) k && (n <? 4294967295)%N)%bool
      then Some n else None
  | None => None
  end.

Fixpoint insert_index {A} (i : N) (p : string * A) (l : list (N * (string * A)))
  : list (N * (string * A)) :=
  match l with
  | [] => [(i, p)]
  | (j, q) :: rest =>
      if (i <? j)%N then (i, p) :: l else (j, q) :: insert_index i p rest
  end.

Fixpoint index_properties {A} (o : object A) : list (N * (string * A)) :=
  match o with
  | [] => []
  | (k, v) :: rest =>
      match array_index k with
      | Some i => insert_index i (k, v) (index_properties rest)
      | None => index_properties rest
      end
  end.

Definition string_properties {A} (o : object A) : object A :=
  filter (fun p => match array_index (fst p) with Some _ => false | None => true end) o.

(** [Object.entries]: the own properties, array-index keys first in ascending
    numeric order, then the other keys in creation order. *)
Definition entries {A} (o : object A) : list (string * A) :=
  (map snd (index_properties o) ++ string_properties o)%list.

(** ** Property lookup through the prototype chain

    An object literal inherits from [Object.prototype]; [o[k]] on it finds an
    own property, else a member of [Object.prototype], else is undefined. *)

Definition Object_prototype : list string :=
  [ "constructor"; "hasOwnProperty"; "isPrototypeOf"; "propertyIsEnumerable";
    "toLocaleString"; "toString"; "valueOf"; "__proto__";
    "__defineGetter__"; "__defineSetter__"; "__lookupGetter__"; "__lookupSetter__" ].

(** What a lookup in an object of strings can give: a string, or the member
    of [Object.prototype] of that name (a function; for [__proto__] the
    prototype object). *)
Inductive value : Type :=
  | VString (s : string)
  | VInherited (name : string).

Definition truthy (v : value) : bool :=
  match v with
  | VString EmptyString => false
  | VString _ => true
  | VInherited _ => true
  end.

Fixpoint own_property (o : object string) (k : string) : option string :=
  match o with
  | [] => None
  | (k', v) :: rest => if String.eqb k' k then Some v else own_property rest k
  end.

Definition inherited (k : string) : bool :=
  existsb (String.eqb k) Object_prototype.

(** [o[k]]; [None] is undefined. *)
Definition get (o : object string) (k : string) : option value :=
  match own_property o k with
  | Some v => Some (VString v)
  | None => if inherited k then Some (VInherited k) else None
  end.

(** [a || b] where [a] may be undefined. *)
Definition or_else (a : option value) (b : value) : value :=
  match a with
  | Some v => if truthy v then v else b
  | None => b
  end.

(** ToString of a value inside a template literal.  The source text of a
    built-in function is implementation-defined ([native]); the prototype
    object prints as every plain object does. *)
Definition value_toString (native : string -> string) (v : value) : string :=
  match v with
  | VString s => s
  | VInherited name =>
      if String.eqb name "__proto__" then "[object Object]" else native name
  end.

End JS.

(* ================================================================== *)
(** * Data model *)
(* ================================================================== *)

Module AssessmentResult.
Record t : Type := {
  overallScore : JS.number;
  scores : JS.object JS.number;
  insights : string;
  metrics : JS.object JS.number;
  assessmentId : string
}.
End AssessmentResult.

Module Question.
Record t : Type := {
  id : JS.number;
  text : string;
  category : string
}.
End Question.

Definition questionBank : list Question.t :=
  [ {| Question.id := JS.of_Z 1; Question.text := "How would you rate your overall mood today?"; Question.category := "emotional" |};
    {| Question.id := JS.of_Z 2; Question.text := "How well did you sleep last night?"; Question.category := "sleep" |};
    {| Question.id := JS.of_Z 3; Question.text := "How stressed do you feel right now?"; Question.category := "stress" |};
    {| Question.id := JS.of_Z 4; Question.text := "How satisfied are you with your social connections?"; Question.category := "social" |};
    {| Question.id := JS.of_Z 5; Question.text := "How would you rate your energy levels?"; Question.category := "physical" |};
    {| Question.id := JS.of_Z 6; Question.text := "How balanced do you feel between work and personal life?"; Question.category := "balance" |};
    {| Question.id := JS.of_Z 7; Question.text := "How well are you taking care of yourself?"; Question.category := "selfcare" |};
    {| Question.id := JS.of_Z 8; Question.text := "How clear and focused is your thinking today?"; Question.category := "mental" |};
    {| Question.id := JS.of_Z 9; Question.text := "How well do you handle challenges?"; Question.category := "resilience" |};
    {| Question.id := JS.of_Z 10; Question.text := "How satisfied are you with your life overall?"; Question.category := "satisfaction" |} ].

Definition scaleLabels : JS.object string :=
  [ ("1", "Very Poor");
    ("2", "Poor");
    ("3", "Fair");
    ("4", "Good");
    ("5", "Excellent") ].

(** A row of the [mood_assessments] table, as far as the page reads it. *)
Module HistoryRecord.
Record t : Type := {
  overall_score : JS.number;
  created_at : string
}.
End HistoryRecord.

(** [location.state]: the payload the previous page navigated here with.
    Each field may be missing. *)
Module Payload.
Record t : Type := {
  results : option AssessmentResult.t;
  responses : option (JS.object string);
  selectedQuestions : option (list Question.t)
}.
End Payload.

(** The component's [useState] cells. *)
Module State.
Record t : Type := {
  results : option AssessmentResult.t;
  responses : JS.object string;
  loading : bool;
  userId : option string;
  assessmentHistory : list HistoryRecord.t
}.

(** The initial values given to [useState]. *)
Definition initial : t :=
  {| results := None; responses := []; loading := true;
     userId := None; assessmentHistory := [] |}.
End State.

(** What the host supplies when the page formats text: the clock read by
    [new Date()] and [Date.now()], the locale's date formatting, and the two
    texts the standard leaves to the implementation. *)
Module Host.
Record t : Type := {
  toLocaleString_now : string;
  now : Z;
  toLocaleDateString : string -> string;
  numberText : JS.number -> string;
  nativeSource : string -> string
}.
End Host.

(* ================================================================== *)
(** * Effects *)
(* ================================================================== *)

Definition Error : Type := string.

Module Session.
Record t : Type := { user_id : string }.
End Session.

(** The answer of the session provider to [getSession()]: the awaited promise
    resolves to a session or to none, or rejects. *)
Inductive session_reply : Type :=
  | SessionResolved (session : option Session.t)
  | SessionRejected (reason : Error).

(** The answer of the data store to the history query: the awaited promise
    resolves to a [{ data, error }] pair, or rejects. *)
Inductive response : Type :=
  | Resolved (data : option (list HistoryRecord.t)) (error : option Error)
  | Rejected (reason : Error).

Module Backend.
Record t : Type := {
  getSession : session_reply;
  assessments : string -> response
}.
End Backend.

(** Calls that leave the component. *)
Inductive event : Type :=
  | AuthGetSession
  | Navigate (path : string)
  | SelectAssessments (user_id : string) (limit : N)
  | ConsoleError (label : string) (error : Error).

Inductive result (A : Type) : Type :=
  | Returned (a : A)
  | Thrown (e : Error).
Arguments Returned {A} a.
Arguments Thrown {A} e.

(** A computation reads and writes the state cells, appends to the log of
    events, and returns or throws. *)
Definition Eff (A : Type) : Type := State.t -> result A * State.t * list event.

Definition ret {A} (a : A) : Eff A := fun st => (Returned a, st, []).

Definition bind {A B} (m : Eff A) (k : A -> Eff B) : Eff B :=
  fun st =>
    match m st with
    | (Returned a, st1, log1) =>
        let '(r, st2, log2) := k a st1 in (r, st2, (log1 ++ log2)%list)
    | (Thrown e, st1, log1) => (Thrown e, st1, log1)
    end.

Definition throw {A} (e : Error) : Eff A := fun st => (Thrown e, st, []).

(** [try { body } catch (error) { handler }] *)
Definition try_catch {A} (body : Eff A) (handler : Error -> Eff A) : Eff A :=
  fun st =>
    match body st with
    | (Returned a, st1, log1) => (Returned a, st1, log1)
    | (Thrown e, st1, log1) =>
        let '(r, st2, log2) := handler e st1 in (r, st2, (log1 ++ log2)%list)
    end.

Definition emit (ev : event) : Eff unit := fun st => (Returned tt, st, [ev]).

Declare Scope eff_scope.
Delimit Scope eff_scope with eff.
Notation "x <- m ;; k" := (bind m (fun x => k))
  (at level 100, m at next level, right associativity) : eff_scope.
Notation "m ;; k" := (bind m (fun _ => k))
  (at level 100, right associativity) : eff_scope.
Local Open Scope eff_scope.

(** [if (c) { m }] *)
Definition when_some {A} (o : option A) (m : A -> Eff unit) : Eff unit :=
  match o with
  | Some a => m a
  | None => ret tt
  end.

Definition setResults (r : AssessmentResult.t) : Eff unit :=
  fun st => (Returned tt,
             {| State.results := Some r; State.responses := State.responses st;
                State.loading := State.loading st; State.userId := State.userId st;
                State.assessmentHistory := State.assessmentHistory st |}, []).

Definition setResponses (r : JS.object string) : Eff unit :=
  fun st => (Returned tt,
             {| State.results := State.results st; State.responses := r;
                State.loading := State.loading st; State.userId := State.userId st;
                State.assessmentHistory := State.assessmentHistory st |}, []).

Definition setLoading (b : bool) : Eff unit :=
  fun st => (Returned tt,
             {| State.results := State.results st; State.responses := State.responses st;
                State.loading := b; State.userId := State.userId st;
                State.assessmentHistory := State.assessmentHistory st |}, []).

Definition setUserId (u : string) : Eff unit :=
  fun st => (Returned tt,
             {| State.results := State.results st; State.responses := State.responses st;
                State.loading := State.loading st; State.userId := Some u;
                State.assessmentHistory := State.assessmentHistory st |}, []).

Definition setAssessmentHistory (h : list HistoryRecord.t) : Eff unit :=
  fun st => (Returned tt,
             {| State.results := State.results st; State.responses := State.responses st;
                State.loading := State.loading st; State.userId := State.userId st;
                State.assessmentHistory := h |}, []).

(** [await supabase.from("mood_assessments").select("*").eq("user_id", userId)
    .order("created_at", { ascending: false }).limit(10)] *)
Definition select_assessments (b : Backend.t) (userId : string)
  : Eff (option (list HistoryRecord.t) * option Error) :=
  emit (SelectAssessments userId 10) ;;
  match Backend.assessments b userId with
  | Resolved data error => ret (data, error)
  | Rejected reason => throw reason
  end.

Definition fetchAssessmentHistory (b : Backend.t) (userId : string) : Eff unit :=
  try_catch
    (r <- select_assessments b userId ;;
     let '(data, error) := r in
     when_some error throw ;;
     when_some data setAssessmentHistory)
    (fun error => emit (ConsoleError "Error fetching history:" error)).

(** [await supabase.auth.getSession()]; the await is in no [try], so a
    rejection is thrown on. *)
Definition get_session (b : Backend.t) : Eff (option Session.t) :=
  emit AuthGetSession ;;
  match Backend.getSession b with
  | SessionResolved session => ret session
  | SessionRejected reason => throw reason
  end.

Definition checkAuth (b : Backend.t) : Eff unit :=
  session <- get_session b ;;
  match session with
  | None => emit (Navigate "/auth")
  | Some session =>
      setUserId (Session.user_id session) ;;
      fetchAssessmentHistory b (Session.user_id session)
  end.

(** A call of an async function that is not awaited: what it does happens,
    and the caller goes on whether the call returns or rejects (a rejection
    stays unhandled). *)
Definition detached (m : Eff unit) : Eff unit :=
  fun st => let '(_, st1, log1) := m st in (Returned tt, st1, log1).

(** [(location.state as any)?.field] *)
Definition optional_field {A} (state : option Payload.t)
  (field : Payload.t -> option A) : option A :=
  match state with
  | Some p => field p
  | None => None
  end.

(** The body of [useEffect].  [checkAuth()] is not awaited: what it does after
    its own [await] runs once the body has finished.  That part and the rest
    of the body write different state cells and only [checkAuth] emits
    events, so running it first gives the same final state and log
    ([useEffect_schedule] below). *)
Definition useEffect (b : Backend.t) (location_state : option Payload.t) : Eff unit :=
  detached (checkAuth b) ;;
  let resultsData := optional_field location_state Payload.results in
  let responsesData := optional_field location_state Payload.responses in
  let selectedQuestionsData := optional_field location_state Payload.selectedQuestions in
  when_some resultsData setResults ;;
  when_some responsesData setResponses ;;
  when_some selectedQuestionsData (fun _ => ret tt) ;;
  setLoading false.

(** The same statements in the order the event loop runs them: [checkAuth]
    up to its [await], the rest of the effect body, then [checkAuth] from its
    [await] on. *)
Definition useEffect_as_scheduled (b : Backend.t) (location_state : option Payload.t)
  : Eff unit :=
  emit AuthGetSession ;;
  when_some (optional_field location_state Payload.results) setResults ;;
  when_some (optional_field location_state Payload.responses) setResponses ;;
  when_some (optional_field location_state Payload.selectedQuestions) (fun _ => ret tt) ;;
  setLoading false ;;
  detached
    match Backend.getSession b with
    | SessionRejected reason => throw reason
    | SessionResolved None => emit (Navigate "/auth")
    | SessionResolved (Some session) =>
        setUserId (Session.user_id session) ;;
        fetchAssessmentHistory b (Session.user_id session)
    end.

(** Mounting the page: the effect runs on the initial state. *)
Definition mount (b : Backend.t) (location_state : option Payload.t)
  : result unit * State.t * list event :=
  useEffect b location_state State.initial.

Definition final_state {A} (r : result A * State.t * list event) : State.t :=
  snd (fst r).

Definition log_of {A} (r : result A * State.t * list event) : list event :=
  snd r.

Definition outcome {A} (r : result A * State.t * list event) : result A :=
  fst (fst r).

(* ================================================================== *)
(** * Derivations made while rendering *)
(* ================================================================== *)

(** A point of the trend chart. *)
Module Point.
Record t : Type := {
  name : string;
  score : JS.number;
  date : string
}.
End Point.

(** [array.map((x, index) => f x index)], counting from [index]. *)
Fixpoint map_indexed {A B} (f : A -> nat -> B) (index : nat) (l : list A) : list B :=
  match l with
  | [] => []
  | x :: rest => f x index :: map_indexed f (S index) rest
  end.

(** The text of [index + 1] for an array index is its decimal numeral. *)
Definition chartPoint (h : Host.t) (assessment : HistoryRecord.t) (index : nat) : Point.t :=
  {| Point.name := "Assessment " ++ JS.decimal (N.of_nat (index + 1));
     Point.score := HistoryRecord.overall_score assessment;
     Point.date := Host.toLocaleDateString h (HistoryRecord.created_at assessment) |}.

Definition chartData (h : Host.t) (assessmentHistory : list HistoryRecord.t) : list Point.t :=
  map_indexed (chartPoint h) 0 (rev assessmentHistory).

(** A row of the breakdown table. *)
Module Row.
Record t : Type := {
  questionId : JS.number;
  question : string;
  category : string;
  answer : JS.value;
  score : JS.number
}.
End Row.

(** [questionBank.find((q) => q.id === questionNum)] *)
Definition find_question (questionNum : JS.number) : option Question.t :=
  find (fun q => JS.strict_eq (Question.id q) questionNum) questionBank.

(** [question?.field || fallback] *)
Definition field_or (question : option Question.t) (field : Question.t -> string)
  (fallback : string) : string :=
  match question with
  | Some q => match field q with EmptyString => fallback | s => s end
  | None => fallback
  end.

Definition tableRow (entry : string * string) : Row.t :=
  let '(questionId, answer) := entry in
  let questionNum := JS.parseInt questionId in
  let question := find_question questionNum in
  {| Row.questionId := questionNum;
     Row.question := field_or question Question.text "Unknown question";
     Row.category := field_or question Question.category "Unknown";
     Row.answer := JS.or_else (JS.get scaleLabels answer) (JS.VString answer);
     Row.score := JS.parseInt answer |}.

Definition tableData (responses : JS.object string) : list Row.t :=
  map tableRow (JS.entries responses).

Definition getScoreColor (score : JS.number) : string :=
  if JS.ge score (JS.of_Z 40) then "text-green-500"
  else if JS.ge score (JS.of_Z 30) then "text-blue-500"
  else if JS.ge score (JS.of_Z 20) then "text-yellow-500"
  else "text-red-500".

(** The tiers, lowest first. *)
Definition tier (color : string) : nat :=
  if String.eqb color "text-green-500" then 3
  else if String.eqb color "text-blue-500" then 2
  else if String.eqb color "text-yellow-500" then 1
  else 0.

(** ** The export *)

(** The anchor element [downloadResults] clicks: the text it carries (URI
    encoded, in its [href]) and the file name in its [download] attribute. *)
Module Download.
Record t : Type := {
  content : string;
  download : string
}.
End Download.

(** The text of an integer, as [Date.now()] is. *)
Definition integerText (z : Z) : string :=
  match z with
  | Zneg p => "-" ++ JS.decimal (Npos p)
  | _ => JS.decimal (Z.to_N z)
  end.

(** One element of [tableData.map((row) => ...)] in the export. *)
Definition exportRow (h : Host.t) (row : Row.t) : string :=
  "Q: " ++ Row.question row ++ JS.LF ++
  "A: " ++ JS.value_toString (Host.nativeSource h) (Row.answer row) ++ JS.LF.

Definition exportContent (h : Host.t) (results : AssessmentResult.t)
  (tableData : list Row.t) : string :=
  JS.trim
    (JS.LF ++
     "Assessment Results" ++ JS.LF ++
     "Date: " ++ Host.toLocaleString_now h ++ JS.LF ++
     "Overall Score: " ++
       JS.toString (Host.numberText h) (AssessmentResult.overallScore results) ++ "/50" ++ JS.LF ++
     JS.LF ++
     "Insights:" ++ JS.LF ++
     AssessmentResult.insights results ++ JS.LF ++
     JS.LF ++
     "Questions & Answers:" ++ JS.LF ++
     JS.join JS.LF (map (exportRow h) tableData) ++ JS.LF ++
     "    ").

Definition downloadResults (h : Host.t) (results : AssessmentResult.t)
  (tableData : list Row.t) : Download.t :=
  {| Download.content := exportContent h results tableData;
     Download.download := "assessment-results-" ++ integerText (Host.now h) ++ ".txt" |}.

(** ** The rendered page *)

(** The cells of a table row as handed to the renderer. *)
Module Cells.
Record t : Type := {
  question : string;
  category : string;
  answer : JS.value;
  score : string
}.
End Cells.

Definition rowCells (h : Host.t) (row : Row.t) : Cells.t :=
  {| Cells.question := Row.question row;
     Cells.category := Row.category row;
     Cells.answer := Row.answer row;
     Cells.score := JS.toString (Host.numberText h) (Row.score row) ++ "/5" |}.

Module Page.
Record t : Type := {
  scoreColor : string;
  overallScore : string;
  assessedOn : string;
  keyMetrics : list (string * string);
  insights : string;
  trend : option (list Point.t);
  breakdown : list Cells.t
}.
End Page.

Inductive View : Type :=
  | Loading
  | NoAssessmentData
  | Results (page : Page.t).

Definition render (h : Host.t) (st : State.t) : View :=
  if State.loading st then Loading
  else
    match State.results st with
    | None => NoAssessmentData
    | Some results =>
        let chartData := chartData h (State.assessmentHistory st) in
        let tableData := tableData (State.responses st) in
        Results
          {| Page.scoreColor := getScoreColor (AssessmentResult.overallScore results);
             Page.overallScore :=
               JS.toString (Host.numberText h) (AssessmentResult.overallScore results);
             Page.assessedOn := Host.toLocaleString_now h;
             Page.keyMetrics :=
               map (fun kv => (fst kv, JS.toString (Host.numberText h) (snd kv) ++ "/10"))
                 (firstn 3 (JS.entries (AssessmentResult.scores results)));
             Page.insights := AssessmentResult.insights results;
             Page.trend :=
               if (1 <? List.length chartData)%nat then Some chartData else None;
             Page.breakdown := map (rowCells h) tableData |}
    end.

(** Clicking the Download Results button, which only the results view has;
    [h] is the host at the time of the click. *)
Definition onDownload (h : Host.t) (st : State.t) : option Download.t :=
  if State.loading st then None
  else
    match State.results st with
    | None => None
    | Some results => Some (downloadResults h results (tableData (State.responses st)))
    end.

(** The trend chart section of a view, when it has one. *)
Definition trend_of (v : View) : option (list Point.t) :=
  match v with
  | Results page => Page.trend page
  | _ => None
  end.

Definition breakdown_of (v : View) : list Cells.t :=
  match v with
  | Results page => Page.breakdown page
  | _ => []
  end.

(** What a visit shows once the effect has run. *)
Definition page_after_mount (h : Host.t) (b : Backend.t)
  (location_state : option Payload.t) : View :=
  render h (final_state (mount b location_state)).

(** The state with its history cell replaced. *)
Definition with_history (st : State.t) (h : list HistoryRecord.t) : State.t :=
  {| State.results := State.results st; State.responses := State.responses st;
     State.loading := State.loading st; State.userId := State.userId st;
     State.assessmentHistory := h |}.

(** The error a history answer carries, if any: a rejected promise, or a
    resolved one whose [error] is set. *)
Definition failure (r : response) : option Error :=
  match r with
  | Rejected reason => Some reason
  | Resolved _ (Some error) => Some error
  | Resolved _ None => None
  end.

(** ** The href of the download *)

Module URI.

(** The characters [encodeURIComponent] leaves as they are: letters, digits
    and [- _ . ! ~ * ' ( )]. *)
Definition unescaped (c : ascii) : bool :=
  let n := N_of_ascii c in
  (((48 <=? n) && (n <=? 57)) || ((65 <=? n) && (n <=? 90)) ||
   ((97 <=? n) && (n <=? 122)))%N ||
  existsb (Ascii.eqb c) ["-"; "_"; "."; "!"; "~"; "*"; "'"; "("; ")"]%char.

Definition hex_digit (n : N) : ascii :=
  ascii_of_N (if (n <? 10)%N then 48 + n else 55 + n)%N.

(** [%XX] for one octet. *)
Definition escape (octet : N) : string :=
  String "%" (String (hex_digit (octet / 16))
                (String (hex_digit (octet mod 16)) EmptyString)).

(** One code unit: itself when unescaped, otherwise the escapes of its UTF-8
    octets, one octet below 128 and two from 128 to 255. *)
Definition encode_unit (c : ascii) : string :=
  let n := N_of_ascii c in
  if unescaped c then String c EmptyString
  else if (n <? 128)%N then escape n
  else escape (192 + n / 64) ++ escape (128 + n mod 64).

Fixpoint encodeURIComponent (s : string) : string :=
  match s with
  | EmptyString => EmptyString
  | String c s' => encode_unit c ++ encodeURIComponent s'
  end.

(** Reading the escapes back, used to show that encoding loses nothing. *)
Definition hex_value (c : ascii) : N :=
  let n := N_of_ascii c in
  (if n <? 58 then n - 48 else n - 55)%N.

Fixpoint unescape (s : string) : string :=
  match s with
  | EmptyString => EmptyString
  | String "%" (String a (String b rest)) =>
      let octet := (16 * hex_value a + hex_value b)%N in
      if (octet <? 128)%N then String (ascii_of_N octet) (unescape rest)
      else
        match rest with
        | String "%" (String a' (String b' rest')) =>
            String
              (ascii_of_N ((octet - 192) * 64 +
                           (16 * hex_value a' + hex_value b' - 128))%N)
              (unescape rest')
        | _ => unescape rest
        end
  | String c rest => String c (unescape rest)
  end.

(** Every character of [s] satisfies [p]. *)
Fixpoint every (p : ascii -> bool) (s : string) : bool :=
  match s with
  | EmptyString => true
  | String c s' => p c && every p s'
  end.

End URI.

(** The [href] given to the anchor element. *)
Definition downloadHref (h : Host.t) (results : AssessmentResult.t)
  (tableData : list Row.t) : string :=
  "data:text/plain;charset=utf-8," ++
  URI.encodeURIComponent (exportContent h results tableData).

(** ** Sample inputs *)

Module Sample.

Definition host (clock : string) : Host.t :=
  {| Host.toLocaleString_now := clock;
     Host.now := 1793637000000;
     Host.toLocaleDateString := fun created_at => substring 0 10 created_at;
     Host.numberText := fun _ => "1.5";
     Host.nativeSource := fun name => "function " ++ name ++ "() { [native code] }" |}.

Definition results : AssessmentResult.t :=
  {| AssessmentResult.overallScore := JS.of_Z 42;
     AssessmentResult.scores := [("emotional", JS.of_Z 8); ("sleep", JS.of_Z 9)];
     AssessmentResult.insights := "Good balance";
     AssessmentResult.metrics := [];
     AssessmentResult.assessmentId := "a-1" |}.

Definition responses : JS.object string := [("1", "4"); ("2", "5")].

Definition history : list HistoryRecord.t :=
  [ {| HistoryRecord.overall_score := JS.of_Z 35;
       HistoryRecord.created_at := "2026-11-01T09:00:00+00:00" |};
    {| HistoryRecord.overall_score := JS.of_Z 28;
       HistoryRecord.created_at := "2026-10-25T09:00:00+00:00" |} ].

Definition signed_in (answer : response) : Backend.t :=
  {| Backend.getSession := SessionResolved (Some {| Session.user_id := "u1" |});
     Backend.assessments := fun _ => answer |}.

Definition signed_out : Backend.t :=
  {| Backend.getSession := SessionResolved None;
     Backend.assessments := fun _ => Resolved None None |}.

Definition lookup_fails : Backend.t :=
  {| Backend.getSession := SessionRejected "Failed to fetch";
     Backend.assessments := fun _ => Resolved (Some history) None |}.

Definition payload : Payload.t :=
  {| Payload.results := Some results;
     Payload.responses := Some responses;
     Payload.selectedQuestions := None |}.

Definition viewing : State.t :=
  {| State.results := Some results;
     State.responses := responses;
     State.loading := false;
     State.userId := Some "u1";
     State.assessmentHistory := history |}.

End Sample.

(* ================================================================== *)
(** * Properties *)
(* ================================================================== *)

(** ** Order of numbers *)

Lemma SFcompare_antisym (x y : spec_float) :
  SFcompare y x = option_map CompOpp (SFcompare x y).
Proof.
  destruct x as [sx | sx | | sx mx ex], y as [sy | sy | | sy my ey];
    try destruct sx; try destruct sy; try reflexivity;
    cbn [SFcompare option_map]; f_equal;
    rewrite (Z.compare_antisym ey ex);
    destruct (ey ?= ex); cbn [CompOpp]; try reflexivity;
    rewrite (Pos.compare_cont_antisym mx my Eq); cbn [CompOpp];
    try reflexivity;
    destruct (Pos.compare_cont Eq mx my); reflexivity.
Qed.

Ltac compare_cases :=
  repeat match goal with
    | |- context [Pos.compare_cont Eq ?a ?b] =>
        change (Pos.compare_cont Eq a b) with (Pos.compare a b)
    | H : context [Pos.compare_cont Eq ?a ?b] |- _ =>
        change (Pos.compare_cont Eq a b) with (Pos.compare a b) in H
    end;
  repeat match goal with
    | H : context [Z.compare ?a ?b] |- _ =>
        destruct (Z.compare_spec a b); cbn [CompOpp] in H
    | H : context [Pos.compare ?a ?b] |- _ =>
        destruct (Pos.compare_spec a b); cbn [CompOpp] in H
    end;
  try discriminate;
  repeat match goal with
    | |- context [Z.compare ?a ?b] =>
        destruct (Z.compare_spec a b); cbn [CompOpp]
    | |- context [Pos.compare ?a ?b] =>
        destruct (Pos.compare_spec a b); cbn [CompOpp]
    end;
  try reflexivity; try lia.

Lemma SFleb_trans (x y z : spec_float) :
  SFleb x y = true -> SFleb y z = true -> SFleb x z = true.
Proof.
  unfold SFleb.
  destruct x as [sx | sx | | sx mx ex], y as [sy | sy | | sy my ey],
    z as [sz | sz | | sz mz ez];
    try destruct sx; try destruct sy; try destruct sz;
    cbn [SFcompare]; intros Hxy Hyz;
    try discriminate; try reflexivity;
    compare_cases.
Qed.

Lemma SFltb_not_leb (x y : spec_float) :
  SFltb x y = true -> SFleb y x = false.
Proof.
  unfold SFltb, SFleb. rewrite (SFcompare_antisym x y).
  destruct (SFcompare x y) as [[ | | ] | ]; cbn; congruence.
Qed.

Lemma ge_trans (c s s' : JS.number) :
  JS.ge s c = true -> JS.le s s' = true -> JS.ge s' c = true.
Proof. unfold JS.ge, JS.le. intros Hc Hs. exact (SFleb_trans c s s' Hc Hs). Qed.

Lemma twenty_le_thirty : JS.le (JS.of_Z 20) (JS.of_Z 30) = true.
Proof. vm_compute. reflexivity. Qed.

Lemma thirty_le_forty : JS.le (JS.of_Z 30) (JS.of_Z 40) = true.
Proof. vm_compute. reflexivity. Qed.

(** ** The colour bands *)

Lemma getScoreColor_green (s : JS.number) :
  JS.ge s (JS.of_Z 40) = true -> getScoreColor s = "text-green-500".
Proof. unfold getScoreColor. intros ->. reflexivity. Qed.

Lemma getScoreColor_blue (s : JS.number) :
  JS.ge s (JS.of_Z 30) = true -> JS.lt s (JS.of_Z 40) = true ->
  getScoreColor s = "text-blue-500".
Proof.
  unfold getScoreColor. intros H30 H40.
  apply SFltb_not_leb in H40. unfold JS.ge at 1. rewrite H40, H30. reflexivity.
Qed.

Lemma getScoreColor_yellow (s : JS.number) :
  JS.ge s (JS.of_Z 20) = true -> JS.lt s (JS.of_Z 30) = true ->
  getScoreColor s = "text-yellow-500".
Proof.
  unfold getScoreColor. intros H20 H30.
  assert (N30 : JS.ge s (JS.of_Z 30) = false) by (apply SFltb_not_leb; exact H30).
  assert (N40 : JS.ge s (JS.of_Z 40) = false).
  { destruct (JS.ge s (JS.of_Z 40)) eqn:E; [ | reflexivity ].
    unfold JS.ge in E, N30.
    rewrite (SFleb_trans _ _ _ thirty_le_forty E) in N30. discriminate. }
  rewrite N40, N30, H20. reflexivity.
Qed.

Lemma getScoreColor_red (s : JS.number) :
  JS.lt s (JS.of_Z 20) = true -> getScoreColor s = "text-red-500".
Proof.
  unfold getScoreColor. intros H20.
  assert (N20 : JS.ge s (JS.of_Z 20) = false) by (apply SFltb_not_leb; exact H20).
  assert (N30 : JS.ge s (JS.of_Z 30) = false).
  { destruct (JS.ge s (JS.of_Z 30)) eqn:E; [ | reflexivity ].
    unfold JS.ge in E, N20.
    rewrite (SFleb_trans _ _ _ twenty_le_thirty E) in N20. discriminate. }
  assert (N40 : JS.ge s (JS.of_Z 40) = false).
  { destruct (JS.ge s (JS.of_Z 40)) eqn:E; [ | reflexivity ].
    unfold JS.ge in E, N30.
    rewrite (SFleb_trans _ _ _ thirty_le_forty E) in N30. discriminate. }
  rewrite N40, N30, N20. reflexivity.
Qed.

Lemma getScoreColor_monotone (s s' : JS.number) :
  JS.le s s' = true ->
  (tier (getScoreColor s) <= tier (getScoreColor s'))%nat.
Proof.
  intros Hle. unfold getScoreColor.
  destruct (JS.ge s (JS.of_Z 40)) eqn:E40.
  { rewrite (ge_trans _ _ _ E40 Hle). apply Nat.le_refl. }
  destruct (JS.ge s (JS.of_Z 30)) eqn:E30.
  { rewrite (ge_trans _ _ _ E30 Hle).
    destruct (JS.ge s' (JS.of_Z 40)); vm_compute; lia. }
  destruct (JS.ge s (JS.of_Z 20)) eqn:E20.
  { rewrite (ge_trans _ _ _ E20 Hle).
    destruct (JS.ge s' (JS.of_Z 40)), (JS.ge s' (JS.of_Z 30)); vm_compute; lia. }
  destruct (JS.ge s' (JS.of_Z 40)), (JS.ge s' (JS.of_Z 30)),
    (JS.ge s' (JS.of_Z 20)); vm_compute; lia.
Qed.

(** C1.  [getScoreColor] gives every score exactly one of the four colour
    classes, by the thresholds 40, 30 and 20: green from 40 up, blue from 30
    up to 40, yellow from 20 up to 30, red below 20; and a larger score never
    gets a lower tier. *)
Theorem getScoreColor_bands (s : JS.number) :
  In (getScoreColor s)
    ["text-green-500"; "text-blue-500"; "text-yellow-500"; "text-red-500"] /\
  (JS.ge s (JS.of_Z 40) = true -> getScoreColor s = "text-green-500") /\
  (JS.ge s (JS.of_Z 30) = true -> JS.lt s (JS.of_Z 40) = true ->
   getScoreColor s = "text-blue-500") /\
  (JS.ge s (JS.of_Z 20) = true -> JS.lt s (JS.of_Z 30) = true ->
   getScoreColor s = "text-yellow-500") /\
  (JS.lt s (JS.of_Z 20) = true -> getScoreColor s = "text-red-500") /\
  (forall s' : JS.number, JS.le s s' = true ->
     (tier (getScoreColor s) <= tier (getScoreColor s'))%nat).
Proof.
  split.
  { unfold getScoreColor.
    destruct (JS.ge s (JS.of_Z 40)), (JS.ge s (JS.of_Z 30)),
      (JS.ge s (JS.of_Z 20)); cbn [In]; tauto. }
  split; [ apply getScoreColor_green | ].
  split; [ apply getScoreColor_blue | ].
  split; [ apply getScoreColor_yellow | ].
  split; [ apply getScoreColor_red | ].
  intros s'. apply getScoreColor_monotone.
Qed.

Lemma getScoreColor_bands_witness :
  getScoreColor (JS.of_Z 35) = "text-blue-500" /\
  (tier (getScoreColor (JS.of_Z 19)) <= tier (getScoreColor (JS.of_Z 20)))%nat.
Proof.
  split.
  - apply (proj1 (proj2 (proj2 (getScoreColor_bands (JS.of_Z 35)))));
      vm_compute; reflexivity.
  - apply (proj2 (proj2 (proj2 (proj2 (proj2 (getScoreColor_bands (JS.of_Z 19)))))));
      vm_compute; reflexivity.
Defined.

(** The ends of the four bands, and the scores that are not in any band. *)
Lemma getScoreColor_boundaries :
  map (fun z => getScoreColor (JS.of_Z z)) [0; 19; 20; 29; 30; 39; 40; 50] =
    [ "text-red-500"; "text-red-500"; "text-yellow-500"; "text-yellow-500";
      "text-blue-500"; "text-blue-500"; "text-green-500"; "text-green-500" ] /\
  getScoreColor JS.NaN = "text-red-500" /\
  getScoreColor (S754_infinity false) = "text-green-500" /\
  getScoreColor (JS.of_Z (-1)) = "text-red-500".
Proof. vm_compute. repeat split. Qed.

(** ** Text of the export *)

Lemma append_assoc (a b c : string) : (a ++ b) ++ c = a ++ (b ++ c).
Proof. induction a as [ | ch a IH]; cbn; [ reflexivity | now rewrite IH ]. Qed.

Lemma trimEnd_cons (c : ascii) (s : string) :
  JS.isWhiteSpace c = false ->
  JS.trimEnd (String c s) = String c (JS.trimEnd s).
Proof.
  intros Hc. cbn [JS.trimEnd]. rewrite Hc.
  destruct (JS.trimEnd s); reflexivity.
Qed.

Lemma trimEnd_app (a b : string) :
  JS.trimEnd b <> EmptyString ->
  JS.trimEnd (a ++ b) = a ++ JS.trimEnd b.
Proof.
  intros Hb. induction a as [ | ch a IH]; cbn [append].
  - reflexivity.
  - cbn [JS.trimEnd]. rewrite IH.
    destruct (a ++ JS.trimEnd b) eqn:E; [ | reflexivity ].
    destruct a; cbn [append] in E; [ contradiction | discriminate ].
Qed.

Lemma trimEnd_app_nonempty (a b : string) :
  JS.trimEnd b <> EmptyString -> JS.trimEnd (a ++ b) <> EmptyString.
Proof.
  intros Hb. rewrite (trimEnd_app a b Hb).
  destruct a; cbn [append]; [ exact Hb | discriminate ].
Qed.

Lemma trimEnd_cons_nonempty (c : ascii) (s : string) :
  JS.isWhiteSpace c = false -> JS.trimEnd (String c s) <> EmptyString.
Proof. intros Hc. rewrite (trimEnd_cons c s Hc). discriminate. Qed.

(** The text is the fixed frame around the clock reading, the score, the
    insights and the rows; [trim] removes the first line break and, at the
    end, the white space that follows the last row. *)
Lemma exportContent_frame (h : Host.t) (results : AssessmentResult.t)
  (rows : list Row.t) :
  exportContent h results rows =
    "Assessment Results" ++ JS.LF ++
    "Date: " ++ Host.toLocaleString_now h ++ JS.LF ++
    "Overall Score: " ++
      JS.toString (Host.numberText h) (AssessmentResult.overallScore results) ++
      "/50" ++ JS.LF ++ JS.LF ++
    "Insights:" ++ JS.LF ++
    AssessmentResult.insights results ++ JS.LF ++ JS.LF ++
    "Questions & Answers" ++
    JS.trimEnd (":" ++ JS.LF ++ JS.join JS.LF (map (exportRow h) rows) ++ JS.LF ++ "    ").
Proof.
  unfold exportContent, JS.trim.
  set (now := Host.toLocaleString_now h).
  set (num := JS.toString _ _).
  set (ins := AssessmentResult.insights results).
  set (rest := JS.join _ _ ++ _).
  change (JS.trimStart (JS.LF ++ "Assessment Results" ++ ?t))
    with ("Assessment Results" ++ t).
  change ("Questions & Answers:" ++ JS.LF ++ rest)
    with ("Questions & Answers" ++ ":" ++ JS.LF ++ rest).
  assert (Hlast : JS.trimEnd (":" ++ JS.LF ++ rest) <> EmptyString)
    by (apply trimEnd_cons_nonempty; reflexivity).
  repeat (rewrite trimEnd_app;
          [ | repeat (first [ exact Hlast | apply trimEnd_app_nonempty ]) ];
          apply (f_equal (append _))).
  reflexivity.
Qed.

Lemma toString_42 (other : JS.number -> string) :
  JS.toString other (JS.of_Z 42) = "42".
Proof. vm_compute. reflexivity. Qed.

Lemma tableData_sample :
  tableData Sample.responses =
    [ {| Row.questionId := JS.of_Z 1;
         Row.question := "How would you rate your overall mood today?";
         Row.category := "emotional";
         Row.answer := JS.VString "Good";
         Row.score := JS.of_Z 4 |};
      {| Row.questionId := JS.of_Z 2;
         Row.question := "How well did you sleep last night?";
         Row.category := "sleep";
         Row.answer := JS.VString "Excellent";
         Row.score := JS.of_Z 5 |} ].
Proof. vm_compute. reflexivity. Qed.

(** C6.  With overallScore 42, insights "Good balance" and responses
    {1: "4", 2: "5"}, the exported text is the one below, whatever the host:
    it contains "42/50" and "Good balance", and the question and answer lines
    of response 1 come before those of response 2. *)
Theorem export_example (h : Host.t) (scores metrics : JS.object JS.number)
  (assessmentId : string) :
  let results :=
    {| AssessmentResult.overallScore := JS.of_Z 42;
       AssessmentResult.scores := scores;
       AssessmentResult.insights := "Good balance";
       AssessmentResult.metrics := metrics;
       AssessmentResult.assessmentId := assessmentId |} in
  let text :=
    Download.content
      (downloadResults h results (tableData [("1", "4"); ("2", "5")])) in
  text =
    "Assessment Results" ++ JS.LF ++
    "Date: " ++ Host.toLocaleString_now h ++ JS.LF ++
    "Overall Score: 42/50" ++ JS.LF ++
    JS.LF ++
    "Insights:" ++ JS.LF ++
    "Good balance" ++ JS.LF ++
    JS.LF ++
    "Questions & Answers:" ++ JS.LF ++
    "Q: How would you rate your overall mood today?" ++ JS.LF ++
    "A: Good" ++ JS.LF ++
    JS.LF ++
    "Q: How well did you sleep last night?" ++ JS.LF ++
    "A: Excellent" /\
  (exists pre post, text = pre ++ "42/50" ++ post) /\
  (exists pre post, text = pre ++ "Good balance" ++ post) /\
  (exists pre between post,
     text = pre ++
            ("Q: How would you rate your overall mood today?" ++ JS.LF ++
             "A: Good" ++ JS.LF) ++
            between ++
            ("Q: How well did you sleep last night?" ++ JS.LF ++
             "A: Excellent") ++
            post).
Proof.
  intros results text.
  assert (Htext : text =
    "Assessment Results" ++ JS.LF ++
    "Date: " ++ Host.toLocaleString_now h ++ JS.LF ++
    "Overall Score: 42/50" ++ JS.LF ++ JS.LF ++
    "Insights:" ++ JS.LF ++ "Good balance" ++ JS.LF ++ JS.LF ++
    "Questions & Answers:" ++ JS.LF ++
    "Q: How would you rate your overall mood today?" ++ JS.LF ++
    "A: Good" ++ JS.LF ++ JS.LF ++
    "Q: How well did you sleep last night?" ++ JS.LF ++
    "A: Excellent").
  { subst text results. cbn [downloadResults Download.content].
    rewrite exportContent_frame.
    cbn [AssessmentResult.overallScore AssessmentResult.insights].
    rewrite toString_42.
    change [("1", "4"); ("2", "5")] with Sample.responses.
    rewrite tableData_sample.
    reflexivity. }
  split; [ exact Htext | ].
  split; [ | split ].
  - exists ("Assessment Results" ++ JS.LF ++
            "Date: " ++ Host.toLocaleString_now h ++ JS.LF ++ "Overall Score: ").
    eexists. rewrite Htext, !append_assoc. reflexivity.
  - exists ("Assessment Results" ++ JS.LF ++
            "Date: " ++ Host.toLocaleString_now h ++ JS.LF ++
            "Overall Score: 42/50" ++ JS.LF ++ JS.LF ++ "Insights:" ++ JS.LF).
    eexists. rewrite Htext, !append_assoc. reflexivity.
  - exists ("Assessment Results" ++ JS.LF ++
            "Date: " ++ Host.toLocaleString_now h ++ JS.LF ++
            "Overall Score: 42/50" ++ JS.LF ++ JS.LF ++
            "Insights:" ++ JS.LF ++ "Good balance" ++ JS.LF ++ JS.LF ++
            "Questions & Answers:" ++ JS.LF).
    exists JS.LF, EmptyString. rewrite Htext, !append_assoc. reflexivity.
Qed.






(** ** Effects of mounting *)

Ltac run_effects :=
  cbv [mount page_after_mount final_state log_of outcome useEffect checkAuth
       get_session detached fetchAssessmentHistory select_assessments try_catch bind emit ret throw
       when_some optional_field setResults setResponses setLoading setUserId
       setAssessmentHistory fst snd app
       State.results State.responses State.loading State.userId
       State.assessmentHistory State.initial
       Payload.results Payload.responses Payload.selectedQuestions
       Backend.getSession Backend.assessments Session.user_id].

Lemma with_history_same (st : State.t) :
  with_history st (State.assessmentHistory st) = st.
Proof. destruct st; reflexivity. Qed.

(** Running [checkAuth] to its end before the rest of the effect body changes
    neither the final state nor the log. *)
Lemma useEffect_schedule (b : Backend.t) (loc : option Payload.t) (st : State.t) :
  useEffect_as_scheduled b loc st = useEffect b loc st.
Proof.
  destruct b as [[[[uid] | ] | reason] a], st as [r resp l u hist];
    unfold useEffect_as_scheduled; run_effects;
    [ destruct (a uid) as [[data | ] [e | ] | e] | | ];
    destruct loc as [[[r' | ] [resp' | ] [sq | ]] | ]; reflexivity.
Qed.

(** The three ways the history request can end. *)
Lemma fetchAssessmentHistory_data (b : Backend.t) (userId : string) (st : State.t)
  (data : list HistoryRecord.t) :
  Backend.assessments b userId = Resolved (Some data) None ->
  fetchAssessmentHistory b userId st =
    (Returned tt, with_history st data, [SelectAssessments userId 10]).
Proof. intros E. run_effects. destruct b as [s a]. cbn in E. rewrite E. reflexivity. Qed.

Lemma fetchAssessmentHistory_empty (b : Backend.t) (userId : string) (st : State.t) :
  Backend.assessments b userId = Resolved None None ->
  fetchAssessmentHistory b userId st =
    (Returned tt, st, [SelectAssessments userId 10]).
Proof. intros E. run_effects. destruct b as [s a]. cbn in E. rewrite E. reflexivity. Qed.

Lemma fetchAssessmentHistory_failure (b : Backend.t) (userId : string) (st : State.t)
  (error : Error) :
  failure (Backend.assessments b userId) = Some error ->
  fetchAssessmentHistory b userId st =
    (Returned tt, st,
     [SelectAssessments userId 10; ConsoleError "Error fetching history:" error]).
Proof.
  intros E. run_effects. destruct b as [s a]. cbn in E.
  destruct (a userId) as [[data | ] [e | ] | e]; cbn in E; inversion E; subst;
    reflexivity.
Qed.

(** What [useEffect] leaves behind: [checkAuth] returns unless the session
    lookup rejects, it can change the user and history cells only, and the
    payload then fills the other cells. *)
Lemma checkAuth_returns (b : Backend.t) (st : State.t) :
  exists history log,
    checkAuth b st =
      (match Backend.getSession b with
       | SessionResolved _ => Returned tt
       | SessionRejected reason => Thrown reason
       end,
       {| State.results := State.results st; State.responses := State.responses st;
          State.loading := State.loading st;
          State.userId :=
            match Backend.getSession b with
            | SessionResolved (Some session) => Some (Session.user_id session)
            | _ => State.userId st
            end;
          State.assessmentHistory := history |}, log).
Proof.
  destruct b as [[[[uid] | ] | reason] a], st as [r resp l u hist]; run_effects.
  - destruct (a uid) as [[data | ] [e | ] | e]; eauto.
  - eauto.
  - eauto.
Qed.

Lemma useEffect_after_checkAuth (b : Backend.t) (loc : option Payload.t) (st : State.t) :
  exists st1,
    final_state (checkAuth b st) = st1 /\
    useEffect b loc st =
      (Returned tt,
       {| State.results :=
            match optional_field loc Payload.results with
            | Some r => Some r
            | None => State.results st
            end;
          State.responses :=
            match optional_field loc Payload.responses with
            | Some r => r
            | None => State.responses st
            end;
          State.loading := false;
          State.userId := State.userId st1;
          State.assessmentHistory := State.assessmentHistory st1 |},
       log_of (checkAuth b st)).
Proof.
  destruct (checkAuth_returns b st) as (history & log & E).
  eexists. split; [ reflexivity | ].
  unfold useEffect at 1. unfold bind at 1. unfold detached at 1. rewrite E.
  destruct loc as [[[r | ] [resp | ] [sq | ]] | ];
    cbv [optional_field Payload.results Payload.responses Payload.selectedQuestions
         when_some bind ret setResults setResponses setLoading final_state log_of
         fst snd State.results State.responses State.loading State.userId
         State.assessmentHistory];
    rewrite ?app_nil_r; reflexivity.
Qed.

(** C5.  When the history request fails, by a rejected promise or by an
    answer that carries an error, [fetchAssessmentHistory] catches it: it
    returns normally, leaves the state as it was, and has made one request
    and one [console.error] call.  A visit whose request fails therefore ends
    with an empty history, without the trend chart, and still shows the
    results it was given. *)
Theorem history_error_swallowed (h : Host.t) (b : Backend.t) (session : Session.t)
  (error : Error) (loc : option Payload.t) :
  Backend.getSession b = SessionResolved (Some session) ->
  failure (Backend.assessments b (Session.user_id session)) = Some error ->
  (forall st,
     fetchAssessmentHistory b (Session.user_id session) st =
       (Returned tt, st,
        [SelectAssessments (Session.user_id session) 10;
         ConsoleError "Error fetching history:" error])) /\
  outcome (mount b loc) = Returned tt /\
  log_of (mount b loc) =
    [AuthGetSession;
     SelectAssessments (Session.user_id session) 10;
     ConsoleError "Error fetching history:" error] /\
  State.assessmentHistory (final_state (mount b loc)) = [] /\
  trend_of (page_after_mount h b loc) = None /\
  (forall results, optional_field loc Payload.results = Some results ->
     exists page, page_after_mount h b loc = Results page).
Proof.
  intros Hsession Hfail.
  assert (Hfetch : forall st,
     fetchAssessmentHistory b (Session.user_id session) st =
       (Returned tt, st,
        [SelectAssessments (Session.user_id session) 10;
         ConsoleError "Error fetching history:" error]))
    by (intros st; apply fetchAssessmentHistory_failure, Hfail).
  split; [ exact Hfetch | ].
  assert (Hauth : forall st,
     checkAuth b st =
       (Returned tt,
        {| State.results := State.results st; State.responses := State.responses st;
           State.loading := State.loading st;
           State.userId := Some (Session.user_id session);
           State.assessmentHistory := State.assessmentHistory st |},
        [AuthGetSession;
         SelectAssessments (Session.user_id session) 10;
         ConsoleError "Error fetching history:" error])).
  { intros st. unfold checkAuth, get_session. rewrite Hsession.
    cbv [bind emit ret setUserId]. rewrite Hfetch. reflexivity. }
  unfold page_after_mount, mount.
  destruct (useEffect_after_checkAuth b loc State.initial) as (st1 & Hst1 & E).
  rewrite E, Hauth in *. cbv [final_state fst snd] in Hst1. subst st1.
  cbv [outcome final_state log_of fst snd State.assessmentHistory State.userId
       State.initial State.results State.responses].
  repeat split.
  - unfold render. cbn.
    destruct (optional_field loc Payload.results); reflexivity.
  - intros results Hresults. rewrite Hresults. unfold render. cbn. eauto.
Qed.

Lemma history_error_swallowed_witness :
  log_of (mount (Sample.signed_in (Rejected "Failed to fetch")) (Some Sample.payload)) =
    [AuthGetSession; SelectAssessments "u1" 10;
     ConsoleError "Error fetching history:" "Failed to fetch"] /\
  trend_of
    (page_after_mount (Sample.host "11/2/2026, 4:30:00 PM")
       (Sample.signed_in (Rejected "Failed to fetch")) (Some Sample.payload)) = None.
Proof.
  pose proof (history_error_swallowed (Sample.host "11/2/2026, 4:30:00 PM")
                (Sample.signed_in (Rejected "Failed to fetch"))
                {| Session.user_id := "u1" |} "Failed to fetch"
                (Some Sample.payload) eq_refl eq_refl) as H.
  split; [ apply H | apply H ].
Defined.

(** The calls a visit makes are those of [checkAuth]; the payload has no part
    in them. *)
Lemma mount_log (b : Backend.t) (loc : option Payload.t) :
  log_of (mount b loc) = log_of (checkAuth b State.initial).
Proof.
  unfold mount.
  destruct (useEffect_after_checkAuth b loc State.initial) as (st1 & _ & E).
  rewrite E. reflexivity.
Qed.

Lemma checkAuth_log (b : Backend.t) (st : State.t) :
  log_of (checkAuth b st) =
    match Backend.getSession b with
    | SessionRejected _ => [AuthGetSession]
    | SessionResolved None => [AuthGetSession; Navigate "/auth"]
    | SessionResolved (Some session) =>
        AuthGetSession :: SelectAssessments (Session.user_id session) 10 ::
        match failure (Backend.assessments b (Session.user_id session)) with
        | Some error => [ConsoleError "Error fetching history:" error]
        | None => []
        end
    end.
Proof.
  destruct b as [[[[uid] | ] | reason] a]; run_effects; try reflexivity.
  cbv [failure]. destruct (a uid) as [[data | ] [e | ] | e]; reflexivity.
Qed.

Lemma useEffect_log (b : Backend.t) (loc : option Payload.t) (st : State.t) :
  log_of (useEffect b loc st) = log_of (checkAuth b st).
Proof.
  destruct (useEffect_after_checkAuth b loc st) as (st1 & _ & E).
  rewrite E. reflexivity.
Qed.

(** C3, as amended.  On a first visit without a result payload the page ends
    on the "no data" placeholder, where neither chart, table nor export is
    derived.  When the effect runs again on a mounted page for a location
    without results, the results it holds are kept, and the placeholder shows
    exactly when it holds none.  In every run the calls are those of the
    session check and depend neither on the payload nor on the state: nothing
    further when the session lookup rejects; without a session, the redirect
    to [/auth]; with one, the history request for that user, and the log call
    when it fails. *)
Theorem no_results_placeholder (h : Host.t) (b : Backend.t) (loc : option Payload.t)
  (st : State.t) :
  optional_field loc Payload.results = None ->
  page_after_mount h b loc = NoAssessmentData /\
  onDownload h (final_state (mount b loc)) = None /\
  State.results (final_state (useEffect b loc st)) = State.results st /\
  (render h (final_state (useEffect b loc st)) = NoAssessmentData <->
   State.results st = None) /\
  (forall loc' st', log_of (useEffect b loc st) = log_of (useEffect b loc' st')) /\
  log_of (useEffect b loc st) =
    match Backend.getSession b with
    | SessionRejected _ => [AuthGetSession]
    | SessionResolved None => [AuthGetSession; Navigate "/auth"]
    | SessionResolved (Some session) =>
        AuthGetSession :: SelectAssessments (Session.user_id session) 10 ::
        match failure (Backend.assessments b (Session.user_id session)) with
        | Some error => [ConsoleError "Error fetching history:" error]
        | None => []
        end
    end.
Proof.
  intros Hnone.
  split; [ | split; [ | split; [ | split; [ | split ] ] ] ].
  - unfold page_after_mount, mount.
    destruct (useEffect_after_checkAuth b loc State.initial) as (st1 & _ & E).
    rewrite E, Hnone. reflexivity.
  - unfold mount.
    destruct (useEffect_after_checkAuth b loc State.initial) as (st1 & _ & E).
    rewrite E, Hnone. reflexivity.
  - destruct (useEffect_after_checkAuth b loc st) as (st1 & _ & E).
    rewrite E, Hnone. reflexivity.
  - destruct (useEffect_after_checkAuth b loc st) as (st1 & _ & E).
    rewrite E, Hnone. unfold render. cbn.
    destruct (State.results st); split; intros H; try reflexivity; discriminate H.
  - intros loc' st'. now rewrite !useEffect_log, !checkAuth_log.
  - rewrite useEffect_log. apply checkAuth_log.
Qed.

Lemma no_results_placeholder_witness :
  page_after_mount (Sample.host "11/2/2026, 4:30:00 PM") Sample.lookup_fails None =
    NoAssessmentData /\
  log_of (useEffect Sample.lookup_fails None Sample.viewing) = [AuthGetSession] /\
  State.results (final_state (useEffect Sample.lookup_fails None Sample.viewing)) =
    Some Sample.results.
Proof.
  pose proof (no_results_placeholder (Sample.host "11/2/2026, 4:30:00 PM")
                Sample.lookup_fails None Sample.viewing eq_refl) as H.
  split; [ apply H | ]. split; apply H.
Defined.

(** C3, counterexample.  A signed-in visit that carries no results shows the
    placeholder and has issued the history request all the same. *)
Lemma history_requested_without_results :
  page_after_mount (Sample.host "11/2/2026, 4:30:00 PM")
    (Sample.signed_in (Resolved (Some Sample.history) None)) None = NoAssessmentData /\
  log_of (mount (Sample.signed_in (Resolved (Some Sample.history) None)) None) =
    [AuthGetSession; SelectAssessments "u1" 10] /\
  State.assessmentHistory
    (final_state (mount (Sample.signed_in (Resolved (Some Sample.history) None)) None)) =
    Sample.history.
Proof. repeat split. Qed.

(** C9.  [selectedQuestions] is read and dropped: two payloads that differ
    only in it leave the same state, make the same calls and render the same
    page, and the table is the row-by-row image of [Object.entries(responses)],
    neither filtered nor reordered. *)
Theorem selectedQuestions_ignored (b : Backend.t) (st : State.t)
  (results : option AssessmentResult.t) (responses : option (JS.object string))
  (selected1 selected2 : option (list Question.t)) :
  let loc1 := Some {| Payload.results := results; Payload.responses := responses;
                      Payload.selectedQuestions := selected1 |} in
  let loc2 := Some {| Payload.results := results; Payload.responses := responses;
                      Payload.selectedQuestions := selected2 |} in
  useEffect b loc1 st = useEffect b loc2 st /\
  (forall h, page_after_mount h b loc1 = page_after_mount h b loc2) /\
  (forall h, onDownload h (final_state (mount b loc1)) =
             onDownload h (final_state (mount b loc2))) /\
  (forall h r resp, results = Some r -> responses = Some resp ->
     breakdown_of (page_after_mount h b loc1) =
       map (fun entry => rowCells h (tableRow entry)) (JS.entries resp)).
Proof.
  intros loc1 loc2.
  assert (E : forall st', useEffect b loc1 st' = useEffect b loc2 st').
  { intros st'. subst loc1 loc2. unfold useEffect, bind.
    destruct (detached (checkAuth b) st') as [[[[] | e] st1] log1]; [ | reflexivity ].
    destruct selected1, selected2; reflexivity. }
  split; [ apply E | ].
  split; [ intros h; unfold page_after_mount, mount; now rewrite E | ].
  split; [ intros h; unfold mount; now rewrite E | ].
  intros h r resp -> ->. unfold page_after_mount, mount.
  destruct (useEffect_after_checkAuth b loc1 State.initial) as (st1 & _ & E1).
  rewrite E1. subst loc1. cbn. unfold tableData. now rewrite map_map.
Qed.

Lemma selectedQuestions_ignored_witness :
  breakdown_of
    (page_after_mount (Sample.host "11/2/2026, 4:30:00 PM") Sample.signed_out
       (Some {| Payload.results := Some Sample.results;
                Payload.responses := Some Sample.responses;
                Payload.selectedQuestions := Some questionBank |})) =
    map (fun entry => rowCells (Sample.host "11/2/2026, 4:30:00 PM") (tableRow entry))
      (JS.entries Sample.responses).
Proof.
  apply (proj2 (proj2 (proj2
           (selectedQuestions_ignored Sample.signed_out State.initial
              (Some Sample.results) (Some Sample.responses)
              (Some questionBank) None)))
           (Sample.host "11/2/2026, 4:30:00 PM") Sample.results Sample.responses
           eq_refl eq_refl).
Defined.

(** ** The trend chart *)

Lemma map_indexed_length {A B} (f : A -> nat -> B) (l : list A) (k : nat) :
  List.length (map_indexed f k l) = List.length l.
Proof.
  revert k. induction l as [ | x l IH]; intros k; cbn; [ reflexivity | ].
  now rewrite IH.
Qed.

Lemma map_indexed_nth_error {A B} (f : A -> nat -> B) (l : list A) (k i : nat) :
  nth_error (map_indexed f k l) i =
    option_map (fun x => f x (k + i)%nat) (nth_error l i).
Proof.
  revert k i. induction l as [ | x l IH]; intros k i.
  - destruct i; reflexivity.
  - destruct i as [ | i]; cbn.
    + now rewrite Nat.add_0_r.
    + rewrite IH. now rewrite Nat.add_succ_r.
Qed.

Lemma chartData_length (h : Host.t) (history : list HistoryRecord.t) :
  List.length (chartData h history) = List.length history.
Proof. unfold chartData. now rewrite map_indexed_length, length_rev. Qed.

Lemma chartData_nth_error (h : Host.t) (history : list HistoryRecord.t) (i : nat) :
  (i < List.length history)%nat ->
  nth_error (chartData h history) i =
    option_map (fun record => chartPoint h record i)
      (nth_error history (List.length history - S i)).
Proof.
  intros Hi. unfold chartData.
  rewrite map_indexed_nth_error, nth_error_rev.
  apply Nat.ltb_lt in Hi. rewrite Hi. reflexivity.
Qed.

Lemma render_trend (h : Host.t) (st : State.t) (results : AssessmentResult.t) :
  State.loading st = false -> State.results st = Some results ->
  trend_of (render h st) =
    if (1 <? List.length (State.assessmentHistory st))%nat
    then Some (chartData h (State.assessmentHistory st)) else None.
Proof.
  intros Hl Hr. unfold render. rewrite Hl, Hr. cbn [trend_of Page.trend].
  now rewrite chartData_length.
Qed.

(** A visit by a signed-in user whose history request succeeds holds the
    fetched list, in the order it was fetched. *)
Lemma mount_history (b : Backend.t) (session : Session.t)
  (data : list HistoryRecord.t) (loc : option Payload.t) :
  Backend.getSession b = SessionResolved (Some session) ->
  Backend.assessments b (Session.user_id session) = Resolved (Some data) None ->
  State.assessmentHistory (final_state (mount b loc)) = data /\
  log_of (mount b loc) =
    [AuthGetSession; SelectAssessments (Session.user_id session) 10].
Proof.
  intros Hsession Hdata.
  assert (Hauth : checkAuth b State.initial =
            (Returned tt,
             with_history
               {| State.results := None; State.responses := []; State.loading := true;
                  State.userId := Some (Session.user_id session);
                  State.assessmentHistory := [] |} data,
             [AuthGetSession; SelectAssessments (Session.user_id session) 10])).
  { unfold checkAuth, get_session. rewrite Hsession. cbv [bind emit ret setUserId].
    rewrite (fetchAssessmentHistory_data b _ _ data Hdata). reflexivity. }
  unfold mount.
  destruct (useEffect_after_checkAuth b loc State.initial) as (st1 & Hst1 & E).
  rewrite E, Hauth in *. cbv [final_state fst snd] in Hst1. subst st1.
  split; reflexivity.
Qed.

(** C4.  With a history of 0 or 1 records no view has the trend chart.  With
    [n >= 2] records the results view has it, with [n] points; point [i]
    (counting from 1) is named "Assessment i" and carries the score and date
    of record [n - i] of the fetched list, so that the points run through the
    fetched list backwards: oldest first when the list was fetched newest
    first. *)
Theorem trend_chart (h : Host.t) (st : State.t) :
  let history := State.assessmentHistory st in
  let n := List.length history in
  ((n <= 1)%nat -> trend_of (render h st) = None) /\
  ((2 <= n)%nat -> State.loading st = false ->
   forall results, State.results st = Some results ->
   exists points,
     trend_of (render h st) = Some points /\
     List.length points = n /\
     (forall i, (1 <= i <= n)%nat ->
        exists record,
          nth_error history (n - i) = Some record /\
          nth_error points (i - 1) =
            Some {| Point.name := "Assessment " ++ JS.decimal (N.of_nat i);
                    Point.score := HistoryRecord.overall_score record;
                    Point.date :=
                      Host.toLocaleDateString h (HistoryRecord.created_at record) |}) /\
     (forall older : HistoryRecord.t -> HistoryRecord.t -> Prop,
        (forall j k rj rk, (j < k)%nat ->
           nth_error history j = Some rj -> nth_error history k = Some rk ->
           older rk rj) ->
        forall i i' ri ri', (1 <= i)%nat -> (i < i')%nat -> (i' <= n)%nat ->
          nth_error history (n - i) = Some ri ->
          nth_error history (n - i') = Some ri' ->
          older ri ri')).
Proof.
  intros history n. split.
  - intros Hn. unfold render.
    destruct (State.loading st); [ reflexivity | ].
    destruct (State.results st); [ | reflexivity ].
    cbn [trend_of Page.trend]. rewrite chartData_length.
    fold history. fold n.
    destruct (Nat.ltb_spec 1 n); [ lia | reflexivity ].
  - intros Hn Hl results Hr.
    exists (chartData h history).
    split; [ | split; [ | split ] ].
    + rewrite (render_trend h st results Hl Hr). fold history. fold n.
      destruct (Nat.ltb_spec 1 n); [ reflexivity | lia ].
    + apply chartData_length.
    + intros i Hi.
      destruct (nth_error history (n - i)) as [record | ] eqn:E.
      * exists record. split; [ reflexivity | ].
        rewrite chartData_nth_error by (fold n; lia). fold n.
        replace (n - S (i - 1))%nat with (n - i)%nat by lia.
        rewrite E. cbn [option_map]. unfold chartPoint.
        replace (i - 1 + 1)%nat with i by lia. reflexivity.
      * apply nth_error_None in E. fold n in E. lia.
    + intros older Hnewest i i' ri ri' H1 Hlt Hle Ei Ei'.
      apply (Hnewest (n - i')%nat (n - i)%nat ri' ri); [ lia | exact Ei' | exact Ei ].
Qed.

Lemma trend_chart_witness :
  exists points,
    trend_of (render (Sample.host "11/2/2026, 4:30:00 PM") Sample.viewing) = Some points /\
    List.length points = 2%nat /\
    nth_error points 0 =
      Some {| Point.name := "Assessment 1";
              Point.score := JS.of_Z 28;
              Point.date := "2026-10-25" |}.
Proof.
  destruct (proj2 (trend_chart (Sample.host "11/2/2026, 4:30:00 PM") Sample.viewing)
              (le_n 2) eq_refl Sample.results eq_refl)
    as (points & Htrend & Hlen & Hpoint & _).
  exists points. split; [ exact Htrend | ]. split; [ exact Hlen | ].
  destruct (Hpoint 1%nat (conj (le_n 1) (le_S 1 1 (le_n 1)))) as (record & Hrecord & Hnth).
  cbv in Hrecord. injection Hrecord as <-. exact Hnth.
Defined.

(** ** The breakdown table *)

Lemma insert_index_In {A} (i : N) (p : string * A) (l : list (N * (string * A)))
  (x : N * (string * A)) :
  In x (JS.insert_index i p l) <-> x = (i, p) \/ In x l.
Proof.
  induction l as [ | [j q] l IH]; cbn [JS.insert_index].
  - cbn. intuition.
  - destruct (i <? j)%N; cbn [In]; [ intuition | ].
    rewrite IH. cbn [In]. intuition.
Qed.

Lemma index_properties_In {A} (o : JS.object A) (i : N) (p : string * A) :
  In (i, p) (JS.index_properties o) <-> In p o /\ JS.array_index (fst p) = Some i.
Proof.
  induction o as [ | [k v] o IH]; cbn [JS.index_properties In].
  - intuition.
  - destruct (JS.array_index k) as [j | ] eqn:E.
    + rewrite insert_index_In, IH. split.
      * intros [H | [H1 H2]]; [ inversion H; subst; cbn; auto | auto ].
      * intros [[H | H] Hi]; [ subst p; cbn in Hi; left; congruence | auto ].
    + rewrite IH. split.
      * intros [H1 H2]; auto.
      * intros [[H | H] Hi]; [ subst p; cbn in Hi; congruence | auto ].
Qed.

(** [Object.entries] lists exactly the own properties. *)
Lemma entries_In {A} (o : JS.object A) (p : string * A) :
  In p (JS.entries o) <-> In p o.
Proof.
  unfold JS.entries, JS.string_properties.
  rewrite in_app_iff, in_map_iff, filter_In. split.
  - intros [([i q] & Hq & Hin) | [Hin _]]; [ | exact Hin ].
    cbn in Hq. subst q. now apply index_properties_In in Hin.
  - intros Hin. destruct (JS.array_index (fst p)) as [i | ] eqn:E.
    + left. exists (i, p). split; [ reflexivity | ].
      apply index_properties_In. auto.
    + right. split; [ exact Hin | reflexivity ].
Qed.

Lemma insert_index_length {A} (i : N) (p : string * A) (l : list (N * (string * A))) :
  List.length (JS.insert_index i p l) = S (List.length l).
Proof.
  induction l as [ | [j q] l IH]; cbn [JS.insert_index]; [ reflexivity | ].
  destruct (i <? j)%N; cbn [List.length]; [ reflexivity | now rewrite IH ].
Qed.

Lemma entries_length {A} (o : JS.object A) :
  List.length (JS.entries o) = List.length o.
Proof.
  unfold JS.entries, JS.string_properties.
  rewrite length_app, length_map.
  induction o as [ | [k v] o IH]; cbn [JS.index_properties filter fst List.length];
    [ reflexivity | ].
  destruct (JS.array_index k); cbn [List.length].
  - rewrite insert_index_length. cbn. now rewrite IH.
  - rewrite Nat.add_succ_r. now rewrite IH.
Qed.

Lemma find_all_false {A} (f : A -> bool) (l : list A) :
  (forall x, In x l -> f x = false) -> find f l = None.
Proof.
  induction l as [ | x l IH]; intros H; cbn [find]; [ reflexivity | ].
  rewrite (H x (or_introl eq_refl)). apply IH. intros y Hy. apply H. now right.
Qed.

(** C7.  The keys "1.5" and "1e+21" (the property names of the numbers 1.5
    and 10^21) are the id of no question of the bank, whose ids print as "1"
    to "10"; yet [parseInt] reads both as 1, the lookup finds question 1, and
    their rows show its text and category instead of "Unknown question" and
    "Unknown". *)
Theorem fractional_key_shows_question_1 (other : JS.number -> string) :
  map (fun q => JS.toString other (Question.id q)) questionBank =
    ["1"; "2"; "3"; "4"; "5"; "6"; "7"; "8"; "9"; "10"] /\
  JS.parseInt "1.5" = JS.of_Z 1 /\
  JS.parseInt "1e+21" = JS.of_Z 1 /\
  tableData [("1.5", "3")] =
    [ {| Row.questionId := JS.of_Z 1;
         Row.question := "How would you rate your overall mood today?";
         Row.category := "emotional";
         Row.answer := JS.VString "Fair";
         Row.score := JS.of_Z 3 |} ] /\
  tableData [("1e+21", "3")] = tableData [("1.5", "3")] /\
  Row.question (tableRow ("1.5", "3")) <> "Unknown question" /\
  Row.category (tableRow ("1.5", "3")) <> "Unknown".
Proof.
  split; [ vm_compute; reflexivity | ].
  split; [ vm_compute; reflexivity | ].
  split; [ vm_compute; reflexivity | ].
  split; [ vm_compute; reflexivity | ].
  split; [ vm_compute; reflexivity | ].
  split; vm_compute; discriminate.
Qed.

(** ** Answer labels and scores *)

(** The five codes of the scale get their label, whatever the question. *)
Lemma answer_label_scale (questionId : string) :
  Row.answer (tableRow (questionId, "1")) = JS.VString "Very Poor" /\
  Row.answer (tableRow (questionId, "2")) = JS.VString "Poor" /\
  Row.answer (tableRow (questionId, "3")) = JS.VString "Fair" /\
  Row.answer (tableRow (questionId, "4")) = JS.VString "Good" /\
  Row.answer (tableRow (questionId, "5")) = JS.VString "Excellent".
Proof. repeat split. Qed.

Lemma own_property_scaleLabels (answer : string) :
  ~ In answer ["1"; "2"; "3"; "4"; "5"] ->
  JS.own_property scaleLabels answer = None.
Proof.
  intros Hout. unfold scaleLabels. cbn [JS.own_property].
  repeat match goal with
    | |- context [String.eqb ?k answer] =>
        destruct (String.eqb_spec k answer) as [E | _];
        [ exfalso; apply Hout; rewrite <- E; cbn; tauto | ]
    end.
  reflexivity.
Qed.


(** A code that names a member of [Object.prototype] is shown as that
    member. *)
Lemma answer_label_inherited (questionId answer : string) :
  JS.inherited answer = true ->
  Row.answer (tableRow (questionId, answer)) = JS.VInherited answer.
Proof.
  intros Hin. cbn [tableRow Row.answer]. unfold JS.get.
  rewrite own_property_scaleLabels, Hin; [ reflexivity | ].
  intros Hscale. cbn in Hscale.
  repeat (destruct Hscale as [<- | Hscale]; [ discriminate Hin | ]).
  contradiction.
Qed.

(** A code [parseInt] cannot read has the score NaN, shown as "NaN/5". *)
Lemma unparseable_answer_score (h : Host.t) (questionId answer : string) :
  JS.parseInt answer = JS.NaN ->
  Row.score (tableRow (questionId, answer)) = JS.NaN /\
  Cells.score (rowCells h (tableRow (questionId, answer))) = "NaN/5".
Proof.
  intros Hnan. cbn [tableRow rowCells Row.score Cells.score].
  rewrite Hnan. split; reflexivity.
Qed.

(** C8.  The code "constructor" is outside "1".."5" and is not shown as it
    is: the lookup [scaleLabels[answer]] finds the member that every object
    inherits, and the row carries that function, which the export prints as
    the host prints a built-in function. *)
Theorem answer_label_constructor (h : Host.t) :
  ~ In "constructor" ["1"; "2"; "3"; "4"; "5"] /\
  Row.answer (tableRow ("1", "constructor")) = JS.VInherited "constructor" /\
  Cells.answer (rowCells h (tableRow ("1", "constructor"))) <> JS.VString "constructor" /\
  exportRow h (tableRow ("1", "constructor")) =
    "Q: How would you rate your overall mood today?" ++ JS.LF ++
    "A: " ++ Host.nativeSource h "constructor" ++ JS.LF.
Proof.
  split.
  { cbn. intros H. repeat (destruct H as [H | H]; [ discriminate H | ]). exact H. }
  split; [ reflexivity | ].
  split; [ discriminate | reflexivity ].
Qed.

(** C10.  The code "toString" is not an integer numeral: its score is NaN and
    its score cell reads "NaN/5"; its label is not the raw code but the
    inherited member of that name. *)
Theorem unparseable_answer_toString (h : Host.t) :
  JS.parseInt "toString" = JS.NaN /\
  Row.score (tableRow ("1", "toString")) = JS.NaN /\
  Cells.score (rowCells h (tableRow ("1", "toString"))) = "NaN/5" /\
  Row.answer (tableRow ("1", "toString")) = JS.VInherited "toString" /\
  Cells.answer (rowCells h (tableRow ("1", "toString"))) <> JS.VString "toString".
Proof.
  split; [ reflexivity | ].
  split; [ reflexivity | ].
  split; [ reflexivity | ].
  split; [ reflexivity | discriminate ].
Qed.

(* ================================================================== *)
(** * Further properties of the effects *)
(* ================================================================== *)

(** X1.  The session guard.  [checkAuth] has three outcomes, decided by the
    session lookup.  When the lookup rejects, [checkAuth] rejects with that
    reason, having changed nothing, and neither redirects nor requests
    anything.  When it resolves without a session, [checkAuth] redirects to
    [/auth], changes nothing and requests nothing.  When it resolves with a
    session, [checkAuth] returns normally, has recorded the user and issued
    the history request.  Every history request is for the user of the
    session, limited to 10 rows. *)
Theorem checkAuth_guard (b : Backend.t) (st : State.t) :
  (forall reason,
     outcome (checkAuth b st) = Thrown reason <->
     Backend.getSession b = SessionRejected reason) /\
  (forall reason, Backend.getSession b = SessionRejected reason ->
     final_state (checkAuth b st) = st /\
     log_of (checkAuth b st) = [AuthGetSession]) /\
  (In (Navigate "/auth") (log_of (checkAuth b st)) <->
   Backend.getSession b = SessionResolved None) /\
  (Backend.getSession b = SessionResolved None ->
   outcome (checkAuth b st) = Returned tt /\
   final_state (checkAuth b st) = st /\
   log_of (checkAuth b st) = [AuthGetSession; Navigate "/auth"]) /\
  (forall u n, In (SelectAssessments u n) (log_of (checkAuth b st)) ->
     exists session,
       Backend.getSession b = SessionResolved (Some session) /\
       u = Session.user_id session /\ n = 10%N) /\
  (forall session, Backend.getSession b = SessionResolved (Some session) ->
     outcome (checkAuth b st) = Returned tt /\
     State.userId (final_state (checkAuth b st)) = Some (Session.user_id session) /\
     In (SelectAssessments (Session.user_id session) 10) (log_of (checkAuth b st))).
Proof.
  destruct (checkAuth_returns b st) as (history & log & E).
  pose proof (checkAuth_log b st) as Hlog.
  assert (Hout : outcome (checkAuth b st) =
                 match Backend.getSession b with
                 | SessionResolved _ => Returned tt
                 | SessionRejected reason => Thrown reason
                 end) by (rewrite E; reflexivity).
  assert (Hunchanged : (forall session, Backend.getSession b <>
                                        SessionResolved (Some session)) ->
                       final_state (checkAuth b st) = st).
  { intros Hno. unfold checkAuth, get_session.
    destruct (Backend.getSession b) as [[session | ] | reason].
    - now destruct (Hno session).
    - destruct st; reflexivity.
    - destruct st; reflexivity. }
  destruct (Backend.getSession b) as [[session | ] | reason] eqn:Hs.
  - assert (Hnav : ~ In (Navigate "/auth") (log_of (checkAuth b st))).
    { rewrite Hlog. cbn [In]. intros [H | [H | H]]; try discriminate H.
      destruct (failure _); cbn in H; intuition discriminate. }
    split; [ intros r; rewrite Hout; split; discriminate | ].
    split; [ discriminate | ].
    split; [ split; [ intros H; contradiction | discriminate ] | ].
    split; [ discriminate | ].
    split.
    { intros u n. rewrite Hlog. cbn [In].
      intros [H | [H | H]]; try discriminate H.
      - injection H as <- <-. eauto.
      - destruct (failure _); cbn in H; intuition discriminate. }
    intros session' H. injection H as <-.
    split; [ exact Hout | ]. split.
    + rewrite E. reflexivity.
    + rewrite Hlog. right. left. reflexivity.
  - split; [ intros r; rewrite Hout; split; discriminate | ].
    split; [ discriminate | ].
    split; [ split; [ reflexivity | intros _; rewrite Hlog; right; left; reflexivity ] | ].
    split.
    { intros _. split; [ exact Hout | ]. split; [ | exact Hlog ].
      apply Hunchanged. discriminate. }
    split; [ | discriminate ].
    intros u n. rewrite Hlog. intros [H | [H | []]]; discriminate H.
  - split.
    { intros r. rewrite Hout. split; intros H; injection H as <-; reflexivity. }
    split.
    { intros r _. split; [ | exact Hlog ]. apply Hunchanged. discriminate. }
    split.
    { split; [ rewrite Hlog; intros [H | []]; discriminate H | discriminate ]. }
    split; [ discriminate | ].
    split; [ | discriminate ].
    intros u n. rewrite Hlog. intros [H | []]; discriminate H.
Qed.

Lemma checkAuth_guard_witness :
  (final_state (checkAuth Sample.lookup_fails Sample.viewing) = Sample.viewing /\
   log_of (checkAuth Sample.lookup_fails Sample.viewing) = [AuthGetSession]) /\
  final_state (checkAuth Sample.signed_out Sample.viewing) = Sample.viewing /\
  State.userId
    (final_state (checkAuth (Sample.signed_in (Resolved None None)) State.initial)) =
    Some "u1".
Proof.
  split; [ | split ].
  - apply (proj1 (proj2 (checkAuth_guard Sample.lookup_fails Sample.viewing))
             "Failed to fetch").
    reflexivity.
  - apply (proj1 (proj2 (proj2 (proj2 (checkAuth_guard Sample.signed_out Sample.viewing))))).
    reflexivity.
  - apply (proj2 (proj2 (proj2 (proj2 (proj2
             (checkAuth_guard (Sample.signed_in (Resolved None None)) State.initial)))))
             {| Session.user_id := "u1" |}).
    reflexivity.
Defined.

(** X2.  The history request is contained.  Whatever the data store answers,
    [fetchAssessmentHistory] returns normally after exactly one request; of
    the state it can change the history cell only, and only to the rows of a
    successful answer. *)
Theorem fetchAssessmentHistory_contained (b : Backend.t) (userId : string)
  (st : State.t) :
  exists st' rest,
    fetchAssessmentHistory b userId st =
      (Returned tt, st', SelectAssessments userId 10 :: rest) /\
    (forall u n, ~ In (SelectAssessments u n) rest) /\
    State.results st' = State.results st /\
    State.responses st' = State.responses st /\
    State.loading st' = State.loading st /\
    State.userId st' = State.userId st /\
    (State.assessmentHistory st' = State.assessmentHistory st \/
     Backend.assessments b userId = Resolved (Some (State.assessmentHistory st')) None).
Proof.
  destruct (Backend.assessments b userId) as [[data | ] [e | ] | e] eqn:E.
  - exists st, [ConsoleError "Error fetching history:" e].
    rewrite (fetchAssessmentHistory_failure b userId st e) by (rewrite E; reflexivity).
    repeat split; auto. intros u n [H | []]. discriminate H.
  - exists (with_history st data), [].
    rewrite (fetchAssessmentHistory_data b userId st data E).
    repeat split; auto.
  - exists st, [ConsoleError "Error fetching history:" e].
    rewrite (fetchAssessmentHistory_failure b userId st e) by (rewrite E; reflexivity).
    repeat split; auto. intros u n [H | []]. discriminate H.
  - exists st, [].
    rewrite (fetchAssessmentHistory_empty b userId st E).
    repeat split; auto.
  - exists st, [ConsoleError "Error fetching history:" e].
    rewrite (fetchAssessmentHistory_failure b userId st e) by (rewrite E; reflexivity).
    repeat split; auto. intros u n [H | []]. discriminate H.
Qed.

(** X3.  A visit by a signed-in user whose request succeeds, carrying
    results: the history cell holds the fetched rows, and the page shows the
    trend chart built from them exactly when there are two or more. *)
Theorem fetched_history_charted (h : Host.t) (b : Backend.t) (session : Session.t)
  (data : list HistoryRecord.t) (loc : option Payload.t)
  (results : AssessmentResult.t) :
  Backend.getSession b = SessionResolved (Some session) ->
  Backend.assessments b (Session.user_id session) = Resolved (Some data) None ->
  optional_field loc Payload.results = Some results ->
  State.assessmentHistory (final_state (mount b loc)) = data /\
  trend_of (page_after_mount h b loc) =
    if (2 <=? List.length data)%nat then Some (chartData h data) else None.
Proof.
  intros Hsession Hdata Hresults.
  destruct (mount_history b session data loc Hsession Hdata) as [Hhist _].
  split; [ exact Hhist | ].
  unfold page_after_mount.
  assert (Hl : State.loading (final_state (mount b loc)) = false /\
               State.results (final_state (mount b loc)) = Some results).
  { unfold mount.
    destruct (useEffect_after_checkAuth b loc State.initial) as (st1 & _ & E).
    rewrite E, Hresults. split; reflexivity. }
  rewrite (render_trend h _ results (proj1 Hl) (proj2 Hl)), Hhist.
  destruct data as [ | r1 [ | r2 data]]; reflexivity.
Qed.

Lemma fetched_history_charted_witness :
  trend_of
    (page_after_mount (Sample.host "11/2/2026, 4:30:00 PM")
       (Sample.signed_in (Resolved (Some Sample.history) None))
       (Some Sample.payload)) =
    Some (chartData (Sample.host "11/2/2026, 4:30:00 PM") Sample.history).
Proof.
  apply (proj2 (fetched_history_charted (Sample.host "11/2/2026, 4:30:00 PM")
                  (Sample.signed_in (Resolved (Some Sample.history) None))
                  {| Session.user_id := "u1" |} Sample.history
                  (Some Sample.payload) Sample.results eq_refl eq_refl eq_refl)).
Defined.

(** X4.  Once the effect has run the spinner is gone, whatever the session
    and the data store did: from any state, the effect returns normally with
    [loading] false, and the page shows the placeholder exactly when neither
    the payload nor the previous state had results. *)
Theorem effect_ends_loading (h : Host.t) (b : Backend.t) (loc : option Payload.t)
  (st : State.t) :
  outcome (useEffect b loc st) = Returned tt /\
  State.loading (final_state (useEffect b loc st)) = false /\
  render h (final_state (useEffect b loc st)) <> Loading /\
  (render h (final_state (useEffect b loc st)) = NoAssessmentData <->
   optional_field loc Payload.results = None /\ State.results st = None).
Proof.
  destruct (useEffect_after_checkAuth b loc st) as (st1 & _ & E).
  rewrite E. cbv [outcome final_state fst snd].
  split; [ reflexivity | ]. split; [ reflexivity | ].
  unfold render. cbn [State.loading State.results].
  destruct (optional_field loc Payload.results) as [r | ].
  - split; [ discriminate | ].
    split; [ discriminate | intros [H _]; discriminate H ].
  - destruct (State.results st) as [r | ].
    + split; [ discriminate | ].
      split; [ discriminate | intros [_ H]; discriminate H ].
    + split; [ discriminate | ]. split; auto.
Qed.

(** X5.  Running the effect a second time for the same location (as React
    does in strict mode) leaves the state of the first run, and repeats the
    first run's calls. *)
Theorem effect_idempotent (b : Backend.t) (loc : option Payload.t) (st : State.t) :
  final_state (useEffect b loc (final_state (useEffect b loc st))) =
    final_state (useEffect b loc st) /\
  log_of (useEffect b loc (final_state (useEffect b loc st))) =
    log_of (useEffect b loc st).
Proof.
  destruct b as [[[[uid] | ] | reason] a], st as [r resp l u hist]; run_effects;
    [ destruct (a uid) as [[data | ] [e | ] | e] | | ];
    destruct loc as [[[r' | ] [resp' | ] [sq | ]] | ]; split; reflexivity.
Qed.

(** X6.  What the payload does not carry is not reset.  When the effect runs
    again for a location without results (or without responses) the results
    (or responses) of the previous location stay in the state; what the
    payload carries replaces the previous value.  On a first visit a payload
    with results but no responses gives the results view with an empty
    table. *)
Theorem payload_fills_cells (h : Host.t) (b : Backend.t) (loc : option Payload.t)
  (st : State.t) :
  (optional_field loc Payload.results = None ->
   State.results (final_state (useEffect b loc st)) = State.results st) /\
  (optional_field loc Payload.responses = None ->
   State.responses (final_state (useEffect b loc st)) = State.responses st) /\
  (forall results, optional_field loc Payload.results = Some results ->
   State.results (final_state (useEffect b loc st)) = Some results) /\
  (forall responses, optional_field loc Payload.responses = Some responses ->
   State.responses (final_state (useEffect b loc st)) = responses) /\
  (forall results, optional_field loc Payload.results = Some results ->
   optional_field loc Payload.responses = None ->
   exists page,
     page_after_mount h b loc = Results page /\ Page.breakdown page = []).
Proof.
  destruct (useEffect_after_checkAuth b loc st) as (st1 & _ & E).
  rewrite E. cbv [final_state fst snd State.results State.responses].
  split; [ now intros -> | ]. split; [ now intros -> | ].
  split; [ now intros results -> | ]. split; [ now intros responses -> | ].
  intros results Hres Hresp. unfold page_after_mount, mount.
  destruct (useEffect_after_checkAuth b loc State.initial) as (st2 & _ & E2).
  rewrite E2, Hres, Hresp. unfold render. cbn. eauto.
Qed.

Lemma payload_fills_cells_witness :
  State.results
    (final_state (useEffect Sample.signed_out None Sample.viewing)) =
    Some Sample.results /\
  exists page,
    page_after_mount (Sample.host "11/2/2026, 4:30:00 PM") Sample.signed_out
      (Some {| Payload.results := Some Sample.results;
               Payload.responses := None;
               Payload.selectedQuestions := None |}) = Results page /\
    Page.breakdown page = [].
Proof.
  split.
  - apply (proj1 (payload_fills_cells (Sample.host "11/2/2026, 4:30:00 PM")
                   Sample.signed_out None Sample.viewing)).
    reflexivity.
  - apply (proj2 (proj2 (proj2 (proj2
             (payload_fills_cells (Sample.host "11/2/2026, 4:30:00 PM")
                Sample.signed_out
                (Some {| Payload.results := Some Sample.results;
                         Payload.responses := None;
                         Payload.selectedQuestions := None |})
                State.initial)))) Sample.results); reflexivity.
Defined.

(* ================================================================== *)
(** * Further properties of the breakdown table *)
(* ================================================================== *)

(** ** Order of the rows *)

Lemma insert_index_perm {A} (i : N) (p : string * A) (l : list (N * (string * A))) :
  Permutation (JS.insert_index i p l) ((i, p) :: l).
Proof.
  induction l as [ | [j q] l IH]; cbn [JS.insert_index]; [ reflexivity | ].
  destruct (i <? j)%N; [ reflexivity | ].
  rewrite IH. apply perm_swap.
Qed.

Lemma entries_perm {A} (o : JS.object A) : Permutation (JS.entries o) o.
Proof.
  unfold JS.entries, JS.string_properties.
  induction o as [ | [k v] o IH];
    cbn [JS.index_properties filter fst map app]; [ reflexivity | ].
  destruct (JS.array_index k) as [i | ].
  - rewrite insert_index_perm. cbn [map snd app]. now apply perm_skip.
  - rewrite <- Permutation_middle. now apply perm_skip.
Qed.

(** X7.  The table has exactly the rows of the responses: each response gives
    one row, none is lost and none is repeated, in whatever order
    [Object.entries] lists them. *)
Theorem table_rows_of_responses (responses : JS.object string) :
  Permutation (tableData responses) (map tableRow responses).
Proof. unfold tableData. apply Permutation_map, entries_perm. Qed.

Lemma insert_index_swap {A} (i j : N) (p q : string * A)
  (l : list (N * (string * A))) :
  i <> j ->
  JS.insert_index i p (JS.insert_index j q l) =
  JS.insert_index j q (JS.insert_index i p l).
Proof.
  intros Hij. induction l as [ | [k r] l IH]; cbn [JS.insert_index].
  - destruct (N.ltb_spec i j), (N.ltb_spec j i); try reflexivity; lia.
  - destruct (N.ltb_spec j k), (N.ltb_spec i k); cbn [JS.insert_index];
      repeat match goal with
        | |- context [(?a <? ?b)%N] => destruct (N.ltb_spec a b)
        end;
      try reflexivity; try lia.
    now rewrite IH.
Qed.

Lemma array_index_decimal (k : string) (i : N) :
  JS.array_index k = Some i -> k = JS.decimal i /\ (i < 4294967295)%N.
Proof.
  unfold JS.array_index.
  destruct (JS.read_digits 10 None k) as [n | ]; [ | discriminate ].
  destruct (String.eqb_spec (JS.decimal n) k) as [E | ]; [ | discriminate ].
  destruct (N.ltb_spec n 4294967295); [ | discriminate ].
  cbn. intros Hsome. injection Hsome as <-. auto.
Qed.

Lemma index_properties_perm {A} (o1 o2 : JS.object A) :
  Permutation o1 o2 -> NoDup (map fst o1) ->
  JS.index_properties o1 = JS.index_properties o2.
Proof.
  induction 1 as [ | [k v] l l' Hp IH | [k1 v1] [k2 v2] l | l l' l'' Hp1 IH1 Hp2 IH2];
    intros Hnd.
  - reflexivity.
  - cbn [JS.index_properties]. cbn [map fst] in Hnd. inversion Hnd; subst.
    rewrite IH by assumption. reflexivity.
  - cbn [JS.index_properties].
    destruct (JS.array_index k1) as [i1 | ] eqn:E1,
             (JS.array_index k2) as [i2 | ] eqn:E2; try reflexivity.
    apply insert_index_swap. intros <-.
    apply array_index_decimal in E1, E2. destruct E1 as [-> _], E2 as [-> _].
    cbn [map fst] in Hnd. inversion Hnd as [ | ? ? Hnotin _]; subst.
    apply Hnotin. left. reflexivity.
  - rewrite IH1 by assumption. apply IH2.
    apply (Permutation_NoDup (Permutation_map fst Hp1) Hnd).
Qed.

(** X8.  The order of the table does not depend on the order in which the
    questions were answered: two response objects with the same properties,
    created in different orders, give the same table, provided their keys
    that are not array indices (if any) were created in the same order. *)
Theorem table_order_independent (responses1 responses2 : JS.object string) :
  Permutation responses1 responses2 ->
  NoDup (map fst responses1) ->
  JS.string_properties responses1 = JS.string_properties responses2 ->
  tableData responses1 = tableData responses2.
Proof.
  intros Hp Hnd Hs. unfold tableData, JS.entries.
  now rewrite (index_properties_perm _ _ Hp Hnd), Hs.
Qed.

Lemma table_order_independent_witness :
  tableData [("2", "5"); ("10", "3"); ("1", "4")] =
  tableData [("1", "4"); ("2", "5"); ("10", "3")].
Proof.
  apply table_order_independent.
  - apply Permutation_sym.
    apply (Permutation_cons_app [("2", "5"); ("10", "3")] [] ("1", "4")).
    rewrite app_nil_r. reflexivity.
  - repeat constructor; cbn; intuition discriminate.
  - reflexivity.
Defined.

Lemma insert_index_sorted {A} (i : N) (p : string * A)
  (l : list (N * (string * A))) :
  StronglySorted (fun x y => (fst x <= fst y)%N) l ->
  StronglySorted (fun x y => (fst x <= fst y)%N) (JS.insert_index i p l).
Proof.
  induction l as [ | [j q] l IH]; intros Hs; cbn [JS.insert_index].
  - constructor; constructor.
  - inversion Hs as [ | ? ? Hs' Hall]; subst.
    destruct (N.ltb_spec i j).
    + constructor; [ exact Hs | ].
      constructor; [ cbn; lia | ].
      rewrite Forall_forall in *. intros x Hx. specialize (Hall x Hx). cbn in *. lia.
    + constructor; [ apply IH, Hs' | ].
      rewrite Forall_forall in *. intros x Hx.
      apply insert_index_In in Hx. destruct Hx as [-> | Hx]; [ cbn; lia | auto ].
Qed.

Lemma index_properties_sorted {A} (o : JS.object A) :
  StronglySorted (fun x y => (fst x <= fst y)%N) (JS.index_properties o).
Proof.
  induction o as [ | [k v] o IH]; cbn [JS.index_properties]; [ constructor | ].
  destruct (JS.array_index k); [ now apply insert_index_sorted | exact IH ].
Qed.

Lemma index_properties_indexed {A} (o : JS.object A) (l : list (N * (string * A))) :
  (forall x, In x l -> JS.array_index (fst (snd x)) = Some (fst x)) ->
  StronglySorted (fun x y => (fst x <= fst y)%N) l ->
  StronglySorted
    (fun p q => exists i j,
       JS.array_index (fst p) = Some i /\ JS.array_index (fst q) = Some j /\
       (i <= j)%N)
    (map snd l).
Proof.
  intros Hidx Hs. induction Hs as [ | x l Hs IH Hall]; cbn [map]; constructor.
  - apply IH. intros y Hy. apply Hidx. now right.
  - rewrite Forall_forall in *. intros q Hq.
    apply in_map_iff in Hq. destruct Hq as (y & <- & Hy).
    exists (fst x), (fst y). split; [ apply Hidx; now left | ].
    split; [ apply Hidx; now right | ]. now apply Hall.
Qed.

Lemma index_properties_filter {A} (o : JS.object A) :
  Permutation (map snd (JS.index_properties o))
    (filter (fun p => match JS.array_index (fst p) with
                      | Some _ => true
                      | None => false
                      end) o).
Proof.
  induction o as [ | [k v] o IH]; cbn [JS.index_properties filter fst];
    [ reflexivity | ].
  destruct (JS.array_index k) as [i | ]; [ | exact IH ].
  rewrite insert_index_perm. cbn [map snd]. now apply perm_skip.
Qed.

(** X9.  The rows come in the order of [Object.entries]: first the responses
    whose key is an array index, all of them and each once, by ascending
    numeric value of the key (so question 10 follows question 2), then the
    other responses in the order they were created. *)
Theorem table_order (responses : JS.object string) :
  exists indexed others,
    tableData responses = (map tableRow indexed ++ map tableRow others)%list /\
    Permutation indexed
      (filter (fun p => match JS.array_index (fst p) with
                        | Some _ => true
                        | None => false
                        end) responses) /\
    (forall p, In p indexed <-> In p responses /\ JS.array_index (fst p) <> None) /\
    StronglySorted
      (fun p q => exists i j,
         JS.array_index (fst p) = Some i /\ JS.array_index (fst q) = Some j /\
         (i <= j)%N)
      indexed /\
    others =
      filter (fun p => match JS.array_index (fst p) with
                       | Some _ => false
                       | None => true
                       end) responses.
Proof.
  exists (map snd (JS.index_properties responses)), (JS.string_properties responses).
  assert (Hidx : forall x, In x (JS.index_properties responses) ->
                   In (snd x) responses /\
                   JS.array_index (fst (snd x)) = Some (fst x)).
  { intros [i p] Hx. now apply index_properties_In in Hx. }
  split; [ unfold tableData, JS.entries; now rewrite map_app | ].
  split; [ apply index_properties_filter | ].
  split.
  { intros p. split.
    - intros Hp. apply in_map_iff in Hp. destruct Hp as (x & <- & Hx).
      destruct (Hidx x Hx) as [Hin E]. split; [ exact Hin | ].
      rewrite E. discriminate.
    - intros [Hin Hix].
      destruct (JS.array_index (fst p)) as [i | ] eqn:E; [ | contradiction ].
      apply in_map_iff. exists (i, p). split; [ reflexivity | ].
      apply index_properties_In. auto. }
  split; [ | reflexivity ].
  apply (index_properties_indexed responses).
  - intros x Hx. now apply Hidx.
  - apply index_properties_sorted.
Qed.

(** ** Integers as numbers *)

Lemma digits2_iter_xO (p k : positive) :
  digits2_pos (Pos.iter xO p k) = (digits2_pos p + k)%positive.
Proof.
  revert p. induction k as [ | k IH] using Pos.peano_ind; intros p.
  - cbn. lia.
  - rewrite Pos.iter_succ. cbn [digits2_pos]. rewrite IH. lia.
Qed.

Lemma digits2_bounds (p : positive) :
  2 ^ (Zpos (digits2_pos p) - 1) <= Zpos p < 2 ^ Zpos (digits2_pos p).
Proof.
  induction p as [p IH | p IH | ]; cbn [digits2_pos].
  - rewrite Pos2Z.inj_succ, Z.pow_succ_r by lia.
    replace (Z.succ (Zpos (digits2_pos p)) - 1) with (Z.succ (Zpos (digits2_pos p) - 1)) by lia.
    rewrite Z.pow_succ_r by lia. lia.
  - rewrite Pos2Z.inj_succ, Z.pow_succ_r by lia.
    replace (Z.succ (Zpos (digits2_pos p)) - 1) with (Z.succ (Zpos (digits2_pos p) - 1)) by lia.
    rewrite Z.pow_succ_r by lia. lia.
  - cbn. lia.
Qed.

Lemma digits2_le_53 (p : positive) :
  Zpos p < 2 ^ 53 -> Zpos (digits2_pos p) <= 53.
Proof.
  intros Hp. pose proof (digits2_bounds p) as [Hlo _].
  destruct (Z_le_gt_dec (Zpos (digits2_pos p)) 53) as [ | Hgt]; [ assumption | ].
  exfalso.
  assert (2 ^ 53 <= 2 ^ (Zpos (digits2_pos p) - 1)) by (apply Z.pow_le_mono_r; lia).
  lia.
Qed.

Lemma iter_xO_pow (p k : positive) :
  Zpos (Pos.iter xO p k) = Zpos p * 2 ^ Zpos k.
Proof.
  revert p. induction k as [ | k IH] using Pos.peano_ind; intros p.
  - cbn. lia.
  - rewrite Pos.iter_succ, Pos2Z.inj_xO, IH, Pos2Z.inj_succ, Z.pow_succ_r by lia. lia.
Qed.

(** The number of an integer of magnitude below 2^53 is that integer exactly:
    mantissa [p * 2^k] and exponent [-k], with [k] the number of bits [p]
    lacks to 53. *)
Lemma binary_round_exact (s : bool) (p : positive) :
  Zpos p < 2 ^ 53 ->
  exists m k,
    binary_round JS.prec JS.emax s p 0 = S754_finite s m (- k) /\
    k = 53 - Zpos (digits2_pos p) /\ 0 <= k /\
    Zpos m = Zpos p * 2 ^ k.
Proof.
  intros Hp. pose proof (digits2_le_53 p Hp) as Hd.
  unfold binary_round, JS.prec, JS.emax.
  set (d := Zpos (digits2_pos p)) in *.
  assert (Hf : fexp 53 1024 (d + 0) = d - 53) by (unfold fexp, emin; lia).
  rewrite Hf. unfold shl_align.
  destruct (d - 53 - 0) as [ | k | k] eqn:E; try lia.
  - exists p, 0. replace (d - 53) with 0 by lia.
    split; [ | split; [ lia | split; [ lia | cbn; lia ] ] ].
    assert (Hf0 : fexp 53 1024 (d + 0) = 0) by lia.
    assert (Hf1 : fexp 53 1024 d = 0) by (rewrite <- Hf0; f_equal; lia).
    unfold binary_round_aux, shr_fexp. cbn [Zdigits2 shr_record_of_loc].
    fold d. rewrite Hf0.
    cbn [Z.sub Z.opp Z.add shr shr_m loc_of_shr_record round_nearest_even Zdigits2].
    fold d. rewrite ?Hf0, ?Hf1. reflexivity.
  - exists (Pos.iter xO p k), (Zpos k).
    split; [ | split; [ lia | split; [ lia | apply iter_xO_pow ] ] ].
    replace (- Zpos k) with (d - 53) by lia.
    unfold binary_round_aux, shr_fexp. cbn [Zdigits2 shr_record_of_loc].
    rewrite digits2_iter_xO.
    assert (Hf2 : fexp 53 1024 (Zpos (digits2_pos p + k) + (d - 53)) = d - 53)
      by (unfold fexp, emin; subst d; lia).
    rewrite Hf2, Z.sub_diag.
    cbn [shr shr_m loc_of_shr_record round_nearest_even Zdigits2].
    rewrite digits2_iter_xO, Hf2, Z.sub_diag. cbn [shr shr_m].
    destruct (Z.leb_spec (d - 53) (1024 - 53)); [ reflexivity | lia ].
Qed.

Lemma of_Z_pos (p : positive) :
  JS.of_Z (Zpos p) = binary_round JS.prec JS.emax false p 0.
Proof. reflexivity. Qed.

Lemma of_Z_neg (p : positive) :
  JS.of_Z (Zneg p) = binary_round JS.prec JS.emax true p 0.
Proof. reflexivity. Qed.

Lemma integer_value_exact (m p : positive) (k : Z) :
  0 <= k -> Zpos m = Zpos p * 2 ^ k ->
  JS.integer_value m (- k) = Some (Zpos p).
Proof.
  intros Hk Hm. unfold JS.integer_value.
  destruct k as [ | k | k]; [ | | lia ].
  - cbn [Z.opp]. f_equal. rewrite Hm. cbn. lia.
  - cbn [Z.opp].
    rewrite Z.land_ones by lia. rewrite Hm, Z.mod_mul by lia.
    cbn [Z.eqb]. rewrite Z.shiftr_div_pow2 by lia.
    now rewrite Z.div_mul by lia.
Qed.

Lemma toString_of_round (other : JS.number -> string) (s : bool) (p : positive) :
  Zpos p < 2 ^ 53 ->
  JS.toString other (binary_round JS.prec JS.emax s p 0) =
    (if s then "-" else "") ++ JS.decimal (Npos p).
Proof.
  intros Hp. destruct (binary_round_exact s p Hp) as (m & k & -> & _ & Hk & Hm).
  unfold JS.toString. rewrite (integer_value_exact m p k Hk Hm).
  destruct (Z.ltb_spec (Zpos p) (2 ^ 53)); [ reflexivity | lia ].
Qed.

(** The text of an integer number of magnitude below 2^53 is its decimal
    numeral. *)
Lemma toString_of_Z (other : JS.number -> string) (z : Z) :
  - 2 ^ 53 < z < 2 ^ 53 ->
  JS.toString other (JS.of_Z z) = integerText z.
Proof.
  intros Hz. destruct z as [ | p | p].
  - reflexivity.
  - rewrite of_Z_pos, toString_of_round by lia. reflexivity.
  - rewrite of_Z_neg, toString_of_round by lia. reflexivity.
Qed.

(** Two positive integers below 2^53 are [===] as numbers only when they are
    the same integer. *)
Lemma strict_eq_of_Z (a b : positive) :
  Zpos a < 2 ^ 53 -> Zpos b < 2 ^ 53 ->
  JS.strict_eq (JS.of_Z (Zpos a)) (JS.of_Z (Zpos b)) = true -> a = b.
Proof.
  intros Ha Hb. rewrite !of_Z_pos.
  destruct (binary_round_exact false a Ha) as (ma & ka & -> & _ & Hka & Hma).
  destruct (binary_round_exact false b Hb) as (mb & kb & -> & _ & Hkb & Hmb).
  unfold JS.strict_eq, SFeqb. cbn [SFcompare].
  destruct (Z.compare_spec (- ka) (- kb)) as [E | | ]; try discriminate.
  change (Pos.compare_cont Eq ma mb) with (Pos.compare ma mb).
  destruct (Pos.compare_spec ma mb) as [Em | | ]; try discriminate.
  intros _. subst mb. assert (ka = kb) by lia. subst kb.
  assert (0 < 2 ^ ka) by (apply Z.pow_pos_nonneg; lia).
  nia.
Qed.

(** ** [parseInt] on decimal numerals *)

Lemma read_digits_acc (d : Decimal.uint) (p : positive) :
  JS.read_digits 10 (Some (Npos p)) (NilEmpty.string_of_uint d) =
    Some (Npos (Pos.of_uint_acc d p)).
Proof.
  revert p. induction d as [ | d IH | d IH | d IH | d IH | d IH | d IH | d IH
                            | d IH | d IH | d IH]; intros p;
    cbn [NilEmpty.string_of_uint JS.read_digits Pos.of_uint_acc];
    [ reflexivity | .. ];
    match goal with
    | |- context [JS.digit_value 10 ?c] =>
        let v := eval vm_compute in (JS.digit_value 10 c) in
        change (JS.digit_value 10 c) with v
    end;
    cbv iota beta;
    match goal with
    | |- JS.read_digits 10 (Some ?n) _ = Some (Npos (Pos.of_uint_acc d ?q)) =>
        replace n with (Npos q) by lia
    end;
    apply IH.
Qed.

Lemma read_digits_zero (d : Decimal.uint) :
  JS.read_digits 10 (Some 0%N) (NilEmpty.string_of_uint d) = Some (Pos.of_uint d).
Proof.
  induction d as [ | d IH | d IH | d IH | d IH | d IH | d IH | d IH
                   | d IH | d IH | d IH];
    cbn [NilEmpty.string_of_uint JS.read_digits Pos.of_uint];
    [ reflexivity | .. ];
    match goal with
    | |- context [JS.digit_value 10 ?c] =>
        let v := eval vm_compute in (JS.digit_value 10 c) in
        change (JS.digit_value 10 c) with v
    end;
    cbv iota beta;
    [ exact IH | .. ];
    match goal with
    | |- JS.read_digits 10 (Some ?n) _ = Some (Npos (Pos.of_uint_acc d ?q)) =>
        change n with (Npos q)
    end;
    apply read_digits_acc.
Qed.

Lemma read_digits_numeral (d : Decimal.uint) :
  d <> Decimal.Nil ->
  JS.read_digits 10 None (NilEmpty.string_of_uint d) = Some (Pos.of_uint d).
Proof.
  destruct d as [ | d | d | d | d | d | d | d | d | d | d];
    intros Hd; [ contradiction | .. ];
    cbn [NilEmpty.string_of_uint JS.read_digits Pos.of_uint];
    match goal with
    | |- context [JS.digit_value 10 ?c] =>
        let v := eval vm_compute in (JS.digit_value 10 c) in
        change (JS.digit_value 10 c) with v
    end;
    cbv iota beta;
    [ apply read_digits_zero | .. ];
    match goal with
    | |- JS.read_digits 10 (Some ?n) _ = Some (Npos (Pos.of_uint_acc d ?q)) =>
        change n with (Npos q)
    end;
    apply read_digits_acc.
Qed.

Lemma to_uint_nonnil (n : N) : N.to_uint n <> Decimal.Nil.
Proof.
  destruct n as [ | p]; [ discriminate | ].
  apply DecimalPos.Unsigned.to_uint_nonnil.
Qed.

(** Reading back the numeral of [n] gives [n]. *)
Lemma read_digits_decimal (n : N) :
  JS.read_digits 10 None (JS.decimal n) = Some n.
Proof.
  unfold JS.decimal. rewrite read_digits_numeral by apply to_uint_nonnil.
  f_equal. apply DecimalN.Unsigned.of_to.
Qed.

Lemma pos_numeral_head (p : positive) :
  match Pos.to_uint p with
  | Decimal.Nil | Decimal.D0 _ => False
  | _ => True
  end.
Proof.
  assert (E : Pos.to_uint p = Decimal.unorm (Pos.to_uint p)).
  { rewrite <- (DecimalPos.Unsigned.to_of (Pos.to_uint p)).
    now rewrite DecimalPos.Unsigned.of_to. }
  pose proof (DecimalPos.Unsigned.to_uint_nonnil p) as Hnil.
  pose proof (DecimalPos.Unsigned.to_uint_nonzero p) as Hzero.
  destruct (Pos.to_uint p) as [ | u | u | u | u | u | u | u | u | u | u];
    try exact I; [ now apply Hnil | ].
  unfold Decimal.unorm in E. cbn [Decimal.nzhead] in E.
  destruct (Decimal.nzhead u) eqn:Hn; try discriminate E.
  - apply Hzero. exact E.
  - injection E as ->. exact (DecimalFacts.nzhead_nonzero _ _ Hn).
Qed.

(** [parseInt] reads the numeral of a natural number back as that number. *)
Lemma parseInt_decimal (n : N) :
  JS.parseInt (JS.decimal n) =
    match n with
    | N0 => S754_zero false
    | Npos p => JS.of_Z (Zpos p)
    end.
Proof.
  destruct n as [ | p]; [ reflexivity | ].
  pose proof (read_digits_decimal (Npos p)) as Hread.
  pose proof (pos_numeral_head p) as Hhead.
  unfold JS.parseInt. unfold JS.decimal in *. cbn [N.to_uint] in *.
  destruct (Pos.to_uint p) as [ | u | u | u | u | u | u | u | u | u | u];
    try contradiction;
    cbn [NilEmpty.string_of_uint] in *;
    match goal with
    | |- context [JS.trimStart (String ?c ?s)] =>
        change (JS.trimStart (String c s)) with (String c s);
        change (JS.strip_sign (String c s)) with (false, String c s);
        cbv iota beta;
        change (JS.strip_prefix (String c s)) with (10%N, String c s)
    end;
    cbv iota beta; rewrite Hread; reflexivity.
Qed.

Lemma bank_ids :
  map Question.id questionBank = map JS.of_Z [1; 2; 3; 4; 5; 6; 7; 8; 9; 10].
Proof. reflexivity. Qed.

(** X10.  Looking a question up by its number.  For a response whose key is
    an array index [n] (the numeral of a natural number below 2^32 - 1): when
    [n] is between 1 and 10 the row shows the text and category of the [n]-th
    question of the bank; for 0 and for every [n] above 10 it shows "Unknown
    question" and "Unknown". *)
Theorem question_by_number (key answer : string) (n : N) :
  JS.array_index key = Some n ->
  (forall q, (1 <= n)%N -> nth_error questionBank (N.to_nat n - 1) = Some q ->
     Row.question (tableRow (key, answer)) = Question.text q /\
     Row.category (tableRow (key, answer)) = Question.category q) /\
  ((n = 0 \/ 10 < n)%N ->
     Row.question (tableRow (key, answer)) = "Unknown question" /\
     Row.category (tableRow (key, answer)) = "Unknown").
Proof.
  intros Hkey. apply array_index_decimal in Hkey. destruct Hkey as [-> Hn].
  split.
  - intros q H1 Hq.
    assert (Hlt : (N.to_nat n - 1 < 10)%nat).
    { change 10%nat with (List.length questionBank).
      apply nth_error_Some. rewrite Hq. discriminate. }
    assert (Hcases : (n = 1 \/ n = 2 \/ n = 3 \/ n = 4 \/ n = 5 \/
                      n = 6 \/ n = 7 \/ n = 8 \/ n = 9 \/ n = 10)%N) by lia.
    repeat (destruct Hcases as [-> | Hcases];
            [ vm_compute in Hq; injection Hq as <-; split; reflexivity | ]).
    subst n. vm_compute in Hq. injection Hq as <-. split; reflexivity.
  - intros Hout.
    cbn [tableRow Row.question Row.category].
    rewrite parseInt_decimal.
    destruct n as [ | p]; [ split; reflexivity | ].
    assert (Hnone : find_question (JS.of_Z (Zpos p)) = None).
    { apply find_all_false. intros q Hq.
      destruct (JS.strict_eq (Question.id q) (JS.of_Z (Zpos p))) eqn:E;
        [ exfalso | reflexivity ].
      assert (Hid : In (Question.id q) (map JS.of_Z [1; 2; 3; 4; 5; 6; 7; 8; 9; 10]))
        by (rewrite <- bank_ids; now apply in_map).
      apply in_map_iff in Hid. destruct Hid as (z & Hz & Hin).
      rewrite <- Hz in E.
      assert (Hp : Zpos p < 2 ^ 53) by lia.
      cbn [In] in Hin.
      repeat (destruct Hin as [<- | Hin];
              [ apply strict_eq_of_Z in E; [ lia | lia | exact Hp ] | ]).
      contradiction. }
    rewrite Hnone. split; reflexivity.
Qed.

Lemma question_by_number_witness :
  Row.question (tableRow ("10", "3")) = "How satisfied are you with your life overall?" /\
  Row.question (tableRow ("4000", "3")) = "Unknown question".
Proof.
  split.
  - refine (proj1 (proj1 (question_by_number "10" "3" 10 eq_refl)
                     {| Question.id := JS.of_Z 10;
                        Question.text := "How satisfied are you with your life overall?";
                        Question.category := "satisfaction" |} _ eq_refl)).
    discriminate.
  - refine (proj1 (proj2 (question_by_number "4000" "3" 4000 eq_refl) _)).
    right. reflexivity.
Defined.

(** X11.  The score column does no range check: an answer that is the
    numeral of a natural number below 2^53 gets that number as its score and
    is shown as the numeral followed by "/5", inside the 1-5 scale or not. *)
Theorem score_echoes_numeral (h : Host.t) (key : string) (n : N) :
  (n < 2 ^ 53)%N ->
  Row.score (tableRow (key, JS.decimal n)) =
    match n with N0 => S754_zero false | Npos p => JS.of_Z (Zpos p) end /\
  Cells.score (rowCells h (tableRow (key, JS.decimal n))) = JS.decimal n ++ "/5".
Proof.
  intros Hn. cbn [tableRow rowCells Row.score Cells.score].
  rewrite parseInt_decimal. split; [ reflexivity | ].
  destruct n as [ | p]; [ reflexivity | ].
  rewrite (toString_of_Z _ (Zpos p)) by lia. reflexivity.
Qed.

Lemma score_echoes_numeral_witness :
  Cells.score (rowCells (Sample.host "11/2/2026, 4:30:00 PM") (tableRow ("1", "7"))) = "7/5".
Proof.
  apply (proj2 (score_echoes_numeral (Sample.host "11/2/2026, 4:30:00 PM") "1" 7 eq_refl)).
Defined.

(* ================================================================== *)
(** * Further properties of the export *)
(* ================================================================== *)

Lemma trimEnd_mid (x : string) (c : ascii) (y : string) :
  JS.isWhiteSpace c = false ->
  JS.trimEnd (x ++ String c y) = x ++ String c (JS.trimEnd y).
Proof.
  intros Hc. rewrite trimEnd_app by (apply trimEnd_cons_nonempty, Hc).
  now rewrite trimEnd_cons.
Qed.

Lemma trimEnd_last (s : string) :
  JS.trimEnd s = EmptyString \/
  exists x c, JS.trimEnd s = x ++ String c EmptyString /\ JS.isWhiteSpace c = false.
Proof.
  induction s as [ | a s IH]; [ now left | ].
  cbn [JS.trimEnd]. destruct IH as [-> | (x & c & -> & Hc)].
  - destruct (JS.isWhiteSpace a) eqn:Ha; [ now left | ].
    right. exists EmptyString, a. auto.
  - right. exists (String a x), c. split; [ | exact Hc ].
    destruct x; reflexivity.
Qed.

Lemma join_split (sep : string) (l1 l2 : list string) (x : string) :
  exists before after, JS.join sep (l1 ++ x :: l2) = before ++ x ++ after.
Proof.
  induction l1 as [ | y l1 IH]; cbn [app].
  - exists EmptyString. destruct l2 as [ | z l2].
    + exists EmptyString. cbn. induction x; cbn; congruence.
    + exists (sep ++ JS.join sep (z :: l2)). reflexivity.
  - destruct IH as (before & after & E).
    exists (y ++ sep ++ before), after.
    change (JS.join sep (y :: (l1 ++ x :: l2)%list))
      with (match (l1 ++ x :: l2)%list with
            | [] => y
            | _ :: _ => y ++ sep ++ JS.join sep (l1 ++ x :: l2)
            end).
    destruct (l1 ++ x :: l2)%list eqn:El; [ now destruct l1 | ].
    rewrite E, !append_assoc. reflexivity.
Qed.

(** X12.  An integer overall score of magnitude below 2^53 is printed as its
    decimal numeral: the export carries the line "Overall Score: " followed
    by the numeral and "/50", whatever the host prints for other numbers. *)
Theorem integer_score_line (h : Host.t) (results : AssessmentResult.t)
  (rows : list Row.t) (z : Z) :
  - 2 ^ 53 < z < 2 ^ 53 ->
  AssessmentResult.overallScore results = JS.of_Z z ->
  exists pre post,
    exportContent h results rows =
      pre ++ (JS.LF ++ "Overall Score: " ++ integerText z ++ "/50" ++ JS.LF) ++ post.
Proof.
  intros Hz Hscore. rewrite exportContent_frame, Hscore, toString_of_Z by exact Hz.
  exists ("Assessment Results" ++ JS.LF ++ "Date: " ++ Host.toLocaleString_now h).
  eexists. rewrite !append_assoc. reflexivity.
Qed.

Lemma integer_score_line_witness :
  exists pre post,
    exportContent (Sample.host "11/2/2026, 4:30:00 PM") Sample.results [] =
      pre ++ (JS.LF ++ "Overall Score: " ++ "42" ++ "/50" ++ JS.LF) ++ post.
Proof.
  apply (integer_score_line (Sample.host "11/2/2026, 4:30:00 PM") Sample.results [] 42).
  - split; reflexivity.
  - reflexivity.
Defined.

(** X13.  Every row of the table is in the export: for each row whose answer
    text ends in a character that is not white space, the export contains the
    line "Q: " with the question followed by the line "A: " with the answer
    text. *)
Theorem export_lists_every_row (h : Host.t) (results : AssessmentResult.t)
  (rows : list Row.t) (row : Row.t) (text : string) (c : ascii) :
  In row rows ->
  JS.value_toString (Host.nativeSource h) (Row.answer row) = text ++ String c EmptyString ->
  JS.isWhiteSpace c = false ->
  exists pre post,
    exportContent h results rows =
      pre ++
      ("Q: " ++ Row.question row ++ JS.LF ++ "A: " ++ text ++ String c EmptyString) ++
      post.
Proof.
  intros Hin Htext Hc. rewrite exportContent_frame.
  apply in_split in Hin. destruct Hin as (l1 & l2 & ->).
  rewrite map_app. cbn [map].
  destruct (join_split JS.LF (map (exportRow h) l1) (map (exportRow h) l2)
              (exportRow h row)) as (before & after & ->).
  unfold exportRow. rewrite Htext.
  set (frame := "Assessment Results" ++ JS.LF ++ "Date: " ++ Host.toLocaleString_now h ++
                JS.LF ++ "Overall Score: " ++
                JS.toString (Host.numberText h) (AssessmentResult.overallScore results) ++
                "/50" ++ JS.LF ++ JS.LF ++ "Insights:" ++ JS.LF ++
                AssessmentResult.insights results ++ JS.LF ++ JS.LF ++
                "Questions & Answers").
  replace (":" ++ JS.LF ++
           (before ++
            ("Q: " ++ Row.question row ++ JS.LF ++
             "A: " ++ (text ++ String c EmptyString) ++ JS.LF) ++ after) ++
           JS.LF ++ "    ")
    with ((":" ++ JS.LF ++ before ++
           "Q: " ++ Row.question row ++ JS.LF ++ "A: " ++ text) ++
          String c (JS.LF ++ after ++ JS.LF ++ "    "))
    by (rewrite !append_assoc; reflexivity).
  rewrite trimEnd_mid by exact Hc.
  exists (frame ++ ":" ++ JS.LF ++ before).
  exists (JS.trimEnd (JS.LF ++ after ++ JS.LF ++ "    ")).
  subst frame. rewrite !append_assoc. reflexivity.
Qed.

Lemma export_lists_every_row_witness :
  exists pre post,
    exportContent (Sample.host "11/2/2026, 4:30:00 PM") Sample.results
      (tableData Sample.responses) =
      pre ++
      ("Q: " ++ "How well did you sleep last night?" ++ JS.LF ++
       "A: " ++ "Excellen" ++ "t") ++
      post.
Proof.
  apply (export_lists_every_row (Sample.host "11/2/2026, 4:30:00 PM") Sample.results
           (tableData Sample.responses) (tableRow ("2", "5")) "Excellen" "t").
  - right. left. reflexivity.
  - reflexivity.
  - reflexivity.
Defined.

(** X14.  The export is trimmed.  It starts with "Assessment Results" and
    never ends in white space, whatever the insights and answers are; with no
    responses it ends with the heading "Questions & Answers:". *)
Theorem export_trimmed (h : Host.t) (results : AssessmentResult.t)
  (rows : list Row.t) :
  (exists middle c,
     exportContent h results rows =
       "Assessment Results" ++ middle ++ String c EmptyString /\
     JS.isWhiteSpace c = false) /\
  exportContent h results [] =
    "Assessment Results" ++ JS.LF ++
    "Date: " ++ Host.toLocaleString_now h ++ JS.LF ++
    "Overall Score: " ++
      JS.toString (Host.numberText h) (AssessmentResult.overallScore results) ++
      "/50" ++ JS.LF ++ JS.LF ++
    "Insights:" ++ JS.LF ++
    AssessmentResult.insights results ++ JS.LF ++ JS.LF ++
    "Questions & Answers:".
Proof.
  split; [ | rewrite exportContent_frame; reflexivity ].
  rewrite exportContent_frame.
  change (":" ++ ?t) with (String ":" t).
  rewrite trimEnd_cons by reflexivity.
  set (tail := JS.LF ++ JS.join JS.LF (map (exportRow h) rows) ++ JS.LF ++ "    ").
  destruct (trimEnd_last tail) as [-> | (x & c & -> & Hc)].
  - eexists. exists ":"%char. split; [ | reflexivity ].
    apply (f_equal (append "Assessment Results")).
    rewrite <- !append_assoc.
    change (String ":" EmptyString) with (EmptyString ++ String ":" EmptyString) at 1.
    reflexivity.
  - eexists. exists c. split; [ | exact Hc ].
    apply (f_equal (append "Assessment Results")).
    change (String ":" (x ++ String c EmptyString))
      with ((String ":" x) ++ String c EmptyString).
    rewrite <- !append_assoc. reflexivity.
Qed.

(** ** The file name *)

Lemma string_length_append (a b : string) :
  String.length (a ++ b) = (String.length a + String.length b)%nat.
Proof. induction a as [ | c a IH]; cbn; [ reflexivity | now rewrite IH ]. Qed.

Lemma append_inv_tail (a b c : string) : a ++ c = b ++ c -> a = b.
Proof.
  revert b. induction a as [ | x a IH]; intros [ | y b] H; cbn [append] in H.
  - reflexivity.
  - apply (f_equal String.length) in H. cbn [String.length] in H.
    rewrite string_length_append in H. lia.
  - apply (f_equal String.length) in H. cbn [String.length] in H.
    rewrite string_length_append in H. lia.
  - injection H as -> H. f_equal. now apply IH.
Qed.

Lemma decimal_inj (n m : N) : JS.decimal n = JS.decimal m -> n = m.
Proof.
  intros H. pose proof (read_digits_decimal n) as Hn.
  rewrite H, read_digits_decimal in Hn. now injection Hn.
Qed.

Lemma integerText_inj (z z' : Z) : integerText z = integerText z' -> z = z'.
Proof.
  assert (Hminus : forall n p, JS.decimal n <> "-" ++ JS.decimal (Npos p)).
  { intros n p H. pose proof (read_digits_decimal n) as Hn.
    rewrite H in Hn. discriminate Hn. }
  destruct z as [ | p | p], z' as [ | q | q]; cbn [integerText Z.to_N]; intros H;
    try reflexivity;
    try (apply decimal_inj in H; congruence);
    try (exfalso; eapply Hminus; first [ exact H | symmetry; exact H ]).
  injection H as H. apply decimal_inj in H. congruence.
Qed.

(** X15.  The file name is "assessment-results-", the clock reading in
    milliseconds as a decimal numeral, and ".txt"; two downloads get the same
    name only when they read the same millisecond. *)
Theorem download_name_by_clock (h1 h2 : Host.t) (results1 results2 : AssessmentResult.t)
  (rows1 rows2 : list Row.t) :
  Download.download (downloadResults h1 results1 rows1) =
    "assessment-results-" ++ integerText (Host.now h1) ++ ".txt" /\
  (Download.download (downloadResults h1 results1 rows1) =
   Download.download (downloadResults h2 results2 rows2) <->
   Host.now h1 = Host.now h2).
Proof.
  split; [ reflexivity | ].
  cbn [downloadResults Download.download]. split.
  - intros H.
    assert (H' : integerText (Host.now h1) ++ ".txt" = integerText (Host.now h2) ++ ".txt").
    { cbn [append] in H. now injection H. }
    apply append_inv_tail in H'. now apply integerText_inj.
  - now intros ->.
Qed.

(** X16.  The Key Metrics card shows at most three scores: the first three
    that [Object.entries(results.scores)] lists, each an own property of
    [scores] printed with "/10". *)
Theorem key_metrics_first_three (h : Host.t) (st : State.t)
  (results : AssessmentResult.t) :
  State.loading st = false -> State.results st = Some results ->
  exists page,
    render h st = Results page /\
    List.length (Page.keyMetrics page) =
      Nat.min 3 (List.length (AssessmentResult.scores results)) /\
    map fst (Page.keyMetrics page) =
      firstn 3 (map fst (JS.entries (AssessmentResult.scores results))) /\
    (forall key text, In (key, text) (Page.keyMetrics page) ->
       exists value,
         In (key, value) (AssessmentResult.scores results) /\
         text = JS.toString (Host.numberText h) value ++ "/10").
Proof.
  intros Hl Hr. unfold render. rewrite Hl, Hr. eexists. split; [ reflexivity | ].
  cbn [Page.keyMetrics]. split; [ | split ].
  - rewrite length_map, length_firstn, entries_length. reflexivity.
  - rewrite map_map. cbn [fst]. now rewrite firstn_map.
  - intros key text Hin. apply in_map_iff in Hin.
    destruct Hin as ([k v] & E & Hin). cbn [fst snd] in E. injection E as <- <-.
    exists v. split; [ | reflexivity ].
    apply entries_In.
    rewrite <- (firstn_skipn 3 (JS.entries (AssessmentResult.scores results))).
    apply in_or_app. now left.
Qed.

Lemma key_metrics_first_three_witness :
  exists page,
    render (Sample.host "11/2/2026, 4:30:00 PM") Sample.viewing = Results page /\
    List.length (Page.keyMetrics page) = 2%nat.
Proof.
  destruct (key_metrics_first_three (Sample.host "11/2/2026, 4:30:00 PM")
              Sample.viewing Sample.results eq_refl eq_refl)
    as (page & Hpage & Hlen & _).
  exists page. split; [ exact Hpage | exact Hlen ].
Defined.

(** ** The href *)

Lemma every_append (p : ascii -> bool) (a b : string) :
  URI.every p (a ++ b) = URI.every p a && URI.every p b.
Proof.
  induction a as [ | c a IH]; cbn [append URI.every]; [ reflexivity | ].
  now rewrite IH, andb_assoc.
Qed.

Lemma encode_unit_safe (c : ascii) :
  URI.every (fun x => URI.unescaped x || Ascii.eqb x "%") (URI.encode_unit c) = true.
Proof.
  destruct c as [[ | ] [ | ] [ | ] [ | ] [ | ] [ | ] [ | ] [ | ]];
    vm_compute; reflexivity.
Qed.

Lemma unescape_unit (c : ascii) (rest : string) :
  URI.unescape (URI.encode_unit c ++ rest) = String c (URI.unescape rest).
Proof.
  destruct c as [[ | ] [ | ] [ | ] [ | ] [ | ] [ | ] [ | ] [ | ]];
    reflexivity.
Qed.

Lemma unescape_encode (s : string) :
  URI.unescape (URI.encodeURIComponent s) = s.
Proof.
  induction s as [ | c s IH]; cbn [URI.encodeURIComponent]; [ reflexivity | ].
  now rewrite unescape_unit, IH.
Qed.

(** X17.  The href is the [data:] prefix followed by the encoded text, in
    which every character is a letter, a digit, one of [- _ . ! ~ * ' ( )] or
    the percent sign of an escape: no line break, space or other
    character of the export appears unescaped. *)
Theorem href_characters (h : Host.t) (results : AssessmentResult.t)
  (rows : list Row.t) :
  exists body,
    downloadHref h results rows = "data:text/plain;charset=utf-8," ++ body /\
    URI.every (fun c => URI.unescaped c || Ascii.eqb c "%") body = true /\
    URI.every (fun c => negb (JS.isWhiteSpace c)) body = true.
Proof.
  exists (URI.encodeURIComponent (exportContent h results rows)).
  split; [ reflexivity | ].
  generalize (exportContent h results rows). intros s.
  assert (Hws : forall c, URI.every (fun x => negb (JS.isWhiteSpace x))
                            (URI.encode_unit c) = true).
  { intros c. destruct c as [[ | ] [ | ] [ | ] [ | ] [ | ] [ | ] [ | ] [ | ]];
      vm_compute; reflexivity. }
  split; induction s as [ | c s IH]; cbn [URI.encodeURIComponent];
    try reflexivity; rewrite every_append, IH, ?encode_unit_safe, ?Hws; reflexivity.
Qed.

(** X18.  Encoding loses nothing: two downloads with the same href carry the
    same text. *)
Theorem href_determines_text (h1 h2 : Host.t) (results1 results2 : AssessmentResult.t)
  (rows1 rows2 : list Row.t) :
  downloadHref h1 results1 rows1 = downloadHref h2 results2 rows2 ->
  exportContent h1 results1 rows1 = exportContent h2 results2 rows2.
Proof.
  unfold downloadHref. intros H.
  assert (H' : URI.encodeURIComponent (exportContent h1 results1 rows1) =
               URI.encodeURIComponent (exportContent h2 results2 rows2)).
  { cbn [append] in H. now injection H. }
  apply (f_equal URI.unescape) in H'. now rewrite !unescape_encode in H'.
Qed.

Lemma href_determines_text_witness :
  exportContent (Sample.host "11/2/2026, 4:30:00 PM") Sample.results [] =
  exportContent
    {| Host.toLocaleString_now := "11/2/2026, 4:30:00 PM";
       Host.now := 0;
       Host.toLocaleDateString := fun created_at => created_at;
       Host.numberText := fun _ => "NaN";
       Host.nativeSource := fun name => name |}
    Sample.results [].
Proof.
  apply href_determines_text. reflexivity.
Defined.

(* ================================================================== *)
(** * Further properties of labels, colours and scheduling *)
(* ================================================================== *)



Lemma leb_of_Z_pos (a b : positive) :
  Zpos a < 2 ^ 53 -> Zpos b < 2 ^ 53 ->
  JS.le (JS.of_Z (Zpos a)) (JS.of_Z (Zpos b)) = (Zpos a <=? Zpos b).
Proof.
  intros Ha Hb. rewrite !of_Z_pos.
  destruct (binary_round_exact false a Ha) as (ma & ka & -> & Eka & Hka & Hma).
  destruct (binary_round_exact false b Hb) as (mb & kb & -> & Ekb & Hkb & Hmb).
  pose proof (digits2_bounds a) as [Hla Hua].
  pose proof (digits2_bounds b) as [Hlb Hub].
  unfold JS.le, SFleb. cbn [SFcompare].
  change (Pos.compare_cont Eq ma mb) with (Pos.compare ma mb).
  destruct (Z.compare_spec (- ka) (- kb)) as [E | E | E].
  - assert (Hk : kb = ka) by lia. rewrite Hk in Hmb.
    assert (Ht : 0 < 2 ^ ka) by (apply Z.pow_pos_nonneg; lia).
    destruct (Z.leb_spec (Zpos a) (Zpos b)) as [L | L].
    + apply (Z.mul_le_mono_nonneg_r _ _ (2 ^ ka)) in L; [ | lia ].
      destruct (Pos.compare_spec ma mb) as [Em | Em | Em]; try reflexivity; lia.
    + apply (Z.mul_lt_mono_pos_r (2 ^ ka)) in L; [ | lia ].
      destruct (Pos.compare_spec ma mb) as [Em | Em | Em]; try reflexivity; lia.
  - assert (Hd : Zpos (digits2_pos a) <= Zpos (digits2_pos b) - 1) by lia.
    assert (2 ^ Zpos (digits2_pos a) <= 2 ^ (Zpos (digits2_pos b) - 1))
      by (apply Z.pow_le_mono_r; lia).
    destruct (Z.leb_spec (Zpos a) (Zpos b)); [ reflexivity | lia ].
  - assert (Hd : Zpos (digits2_pos b) <= Zpos (digits2_pos a) - 1) by lia.
    assert (2 ^ Zpos (digits2_pos b) <= 2 ^ (Zpos (digits2_pos a) - 1))
      by (apply Z.pow_le_mono_r; lia).
    destruct (Z.leb_spec (Zpos a) (Zpos b)); [ lia | reflexivity ].
Qed.

Lemma ge_of_Z (z c : Z) :
  - 2 ^ 53 < z < 2 ^ 53 -> 0 < c < 2 ^ 53 ->
  JS.ge (JS.of_Z z) (JS.of_Z c) = (c <=? z).
Proof.
  intros Hz Hc. destruct c as [ | c | c]; try lia.
  destruct z as [ | p | p].
  - unfold JS.ge. rewrite of_Z_pos.
    destruct (binary_round_exact false c) as (mc & kc & -> & _); [ lia | ].
    reflexivity.
  - apply leb_of_Z_pos; lia.
  - unfold JS.ge. rewrite of_Z_pos, of_Z_neg.
    destruct (binary_round_exact false c) as (mc & kc & -> & _); [ lia | ].
    destruct (binary_round_exact true p) as (mp & kp & -> & _); [ lia | ].
    reflexivity.
Qed.

(** X20.  For an integer score (of magnitude below 2^53, so in particular on
    the 0-50 scale) the colour is decided by the integer thresholds: green
    from 40, blue from 30 to 39, yellow from 20 to 29, red below 20. *)
Theorem getScoreColor_integer (z : Z) :
  - 2 ^ 53 < z < 2 ^ 53 ->
  getScoreColor (JS.of_Z z) =
    if 40 <=? z then "text-green-500"
    else if 30 <=? z then "text-blue-500"
    else if 20 <=? z then "text-yellow-500"
    else "text-red-500".
Proof.
  intros Hz. unfold getScoreColor.
  rewrite !ge_of_Z by (try exact Hz; split; reflexivity).
  reflexivity.
Qed.

Lemma getScoreColor_integer_witness :
  getScoreColor (JS.of_Z 29) = "text-yellow-500".
Proof.
  apply (getScoreColor_integer 29). split; reflexivity.
Defined.

(** X21.  The order in which the event loop runs the two halves of the
    effect does not matter: [checkAuth] resumed after the rest of the effect
    body, as it happens, gives the outcome, state, calls and page of
    [checkAuth] run to its end first. *)
Theorem effect_order_irrelevant (h : Host.t) (b : Backend.t)
  (loc : option Payload.t) (st : State.t) :
  useEffect_as_scheduled b loc st = useEffect b loc st /\
  render h (final_state (useEffect_as_scheduled b loc st)) =
    render h (final_state (useEffect b loc st)).
Proof.
  assert (E : useEffect_as_scheduled b loc st = useEffect b loc st).
  { destruct b as [[[[uid] | ] | reason] a], st as [r resp l u hist];
      unfold useEffect_as_scheduled; run_effects;
      [ destruct (a uid) as [[data | ] [e | ] | e] | | ];
      destruct loc as [[[r' | ] [resp' | ] [sq | ]] | ]; reflexivity. }
  split; [ exact E | now rewrite E ].
Qed.

(** X22.  An answer code that names a member of [Object.prototype]
    ("constructor", "toString", "valueOf", "__proto__" and the like) is never
    shown as text: the row carries the inherited member instead of the code,
    whatever the question. *)
Theorem answer_label_prototype_member (h : Host.t) (key answer : string) :
  In answer JS.Object_prototype ->
  Row.answer (tableRow (key, answer)) = JS.VInherited answer /\
  Cells.answer (rowCells h (tableRow (key, answer))) <> JS.VString answer.
Proof.
  intros Hin.
  assert (Hinh : JS.inherited answer = true).
  { unfold JS.inherited. apply existsb_exists. exists answer.
    split; [ exact Hin | apply String.eqb_refl ]. }
  cbn [rowCells Cells.answer]. rewrite (answer_label_inherited key answer Hinh).
  split; [ reflexivity | discriminate ].
Qed.

Lemma answer_label_prototype_member_witness :
  Row.answer (tableRow ("2", "valueOf")) = JS.VInherited "valueOf".
Proof.
  apply (answer_label_prototype_member (Sample.host "11/2/2026, 4:30:00 PM") "2" "valueOf").
  cbn. tauto.
Defined.
